(** * MultiOAuthenticator: provider dispatch and callback routing

    A shallow embedding of [multioauthenticator/multioauthenticator.py]:
    the chooser handler [MultiOAuthLoginHandler] and the dispatcher
    [MultiOAuthenticator], with the parts of Python, urllib and Tornado
    these classes call. *)

From Stdlib Require Import ZArith Ascii String List Bool Lia.
From stdpp Require Import base option strings list gmap.

(** ** Python values and exceptions *)

(** The exceptions the module can surface.  [ValueError] is raised by
    [get_callback_url] itself, [KeyError] by a dict subscript,
    [AttributeError] by an attribute read or write that Python refuses,
    [HTTPError] by Tornado when it refuses a request, here with its status
    code and without its log message; [OtherError] stands for whatever a
    collaborator raises. *)
Inductive exn : Type :=
  | ValueError (msg : string)
  | KeyError (key : string)
  | AttributeError (attr : string)
  | HTTPError (status_code : Z)
  | OtherError (name msg : string).

Inductive result (A : Type) : Type :=
  | Raise (e : exn)
  | Return (v : A).
Arguments Raise {A} e.
Arguments Return {A} v.

Definition is_raise {A} (r : result A) : bool :=
  match r with Raise _ => true | Return _ => false end.

Definition rbind {A B} (r : result A) (k : A -> result B) : result B :=
  match r with
  | Raise e => Raise e
  | Return v => k v
  end.

Notation "x <- r ;; k" := (rbind r (fun x => k))
  (at level 100, r at next level, right associativity).

(** A value that is either [None] or a [str]; Python's truth test on it. *)
Definition truthy (v : option string) : bool :=
  match v with
  | Some s => negb (String.eqb s "")
  | None => false
  end.

(** ** Python string operations *)

Module Str.

(** [s.startswith(p)] *)
Fixpoint startswith (p s : string) : bool :=
  match p with
  | EmptyString => true
  | String a p' =>
      match s with
      | EmptyString => false
      | String b s' => Ascii.eqb a b && startswith p' s'
      end
  end.

(** [c in s] for a single character [c] *)
Fixpoint contains (c : ascii) (s : string) : bool :=
  match s with
  | EmptyString => false
  | String b s' => Ascii.eqb c b || contains c s'
  end.

(** [old in s] for a substring [old] *)
Fixpoint occurs (old s : string) : bool :=
  startswith old s ||
  match s with
  | EmptyString => false
  | String _ s' => occurs old s'
  end.

(** [s.replace(old, new)] for a non-empty [old]: scan from the left; where
    [old] starts, emit [new] and skip over [old] ([skip] counts the
    characters of the match still to be passed over). *)
Fixpoint replace_from (skip : nat) (old new s : string) : string :=
  match s with
  | EmptyString => EmptyString
  | String c s' =>
      match skip with
      | S k => replace_from k old new s'
      | O =>
          if startswith old s
          then new +:+ replace_from (String.length old - 1) old new s'
          else String c (replace_from 0 old new s')
      end
  end.

(** With an empty [old] Python puts [new] before every character and at
    the end. *)
Fixpoint intersperse (new s : string) : string :=
  match s with
  | EmptyString => new
  | String c s' => new +:+ String c (intersperse new s')
  end.

Definition replace (old new s : string) : string :=
  match old with
  | EmptyString => intersperse new s
  | String _ _ => replace_from 0 old new s
  end.

(** [sep.join(parts)] *)
Fixpoint join (sep : string) (parts : list string) : string :=
  match parts with
  | [] => EmptyString
  | [s] => s
  | s :: rest => s +:+ sep +:+ join sep rest
  end.

(** [s[-1]] when [s] is not empty *)
Fixpoint last (s : string) : option ascii :=
  match s with
  | EmptyString => None
  | String c EmptyString => Some c
  | String _ s' => last s'
  end.

(** The part of [s] before the first [c] (all of [s] when there is none):
    [s.split(c, 1)[0]]. *)
Fixpoint before (c : ascii) (s : string) : string :=
  match s with
  | EmptyString => EmptyString
  | String b s' => if Ascii.eqb c b then EmptyString else String b (before c s')
  end.

(** The part of [s] from the first [c] on, without it:
    [s[s.find(c)+1:]], or [None] when [c] does not occur. *)
Fixpoint after (c : ascii) (s : string) : option string :=
  match s with
  | EmptyString => None
  | String b s' => if Ascii.eqb c b then Some s' else after c s'
  end.

(** [s[n:]] *)
Fixpoint drop (n : nat) (s : string) : string :=
  match n, s with
  | S k, String _ s' => drop k s'
  | _, _ => s
  end.

Fixpoint forallb (f : ascii -> bool) (s : string) : bool :=
  match s with
  | EmptyString => true
  | String b s' => f b && forallb f s'
  end.

Fixpoint concat_map (f : ascii -> string) (s : string) : string :=
  match s with
  | EmptyString => EmptyString
  | String b s' => f b +:+ concat_map f s'
  end.

End Str.

(** ** urllib.parse

    [urlsplit] and [quote_plus] belong to Python's standard library, not to
    this repository; they are written out after CPython's [urllib/parse.py]. *)

Module Urllib.

Definition in_range (lo hi c : ascii) : bool :=
  (N.leb (N_of_ascii lo) (N_of_ascii c)) && (N.leb (N_of_ascii c) (N_of_ascii hi)).

Definition is_alpha (c : ascii) : bool :=
  in_range "a" "z" c || in_range "A" "Z" c.

Definition is_digit (c : ascii) : bool := in_range "0" "9" c.

(** [scheme_chars]: letters, digits and [+-.] *)
Definition scheme_char (c : ascii) : bool :=
  is_alpha c || is_digit c || Ascii.eqb c "+" || Ascii.eqb c "-" || Ascii.eqb c ".".

(** [_WHATWG_C0_CONTROL_OR_SPACE]: the characters up to the space *)
Definition c0_control_or_space (c : ascii) : bool :=
  N.leb (N_of_ascii c) 32.

(** [url.lstrip(_WHATWG_C0_CONTROL_OR_SPACE)] *)
Fixpoint lstrip (s : string) : string :=
  match s with
  | EmptyString => EmptyString
  | String c s' => if c0_control_or_space c then lstrip s' else s
  end.

(** [_UNSAFE_URL_BYTES_TO_REMOVE]: tab, carriage return, line feed *)
Definition unsafe_byte (c : ascii) : bool :=
  Ascii.eqb c "009" || Ascii.eqb c "013" || Ascii.eqb c "010".

Fixpoint remove_unsafe (s : string) : string :=
  match s with
  | EmptyString => EmptyString
  | String c s' => if unsafe_byte c then remove_unsafe s' else String c (remove_unsafe s')
  end.

(** The scheme test: [i = url.find(':')], [i > 0], a letter first, and
    only scheme characters before the colon; then [url = url[i+1:]]. *)
Definition strip_scheme (url : string) : string :=
  match url with
  | EmptyString => url
  | String c0 _ =>
      match Str.after ":" url with
      | Some rest =>
          if is_alpha c0 && Str.forallb scheme_char (Str.before ":" url)
          then rest else url
      | None => url
      end
  end.

Definition netloc_delim (c : ascii) : bool :=
  Ascii.eqb c "/" || Ascii.eqb c "?" || Ascii.eqb c "#".

(** [_splitnetloc(url, 2)], given [url[2:]]: the network location runs to
    the first of [/?#]. *)
Fixpoint splitnetloc (s : string) : string * string :=
  match s with
  | EmptyString => (EmptyString, EmptyString)
  | String c s' =>
      if netloc_delim c then (EmptyString, s)
      else let '(n, r) := splitnetloc s' in (String c n, r)
  end.

(** The path component of [urlsplit(url)].  A network location with one
    bracket but not the other raises [ValueError].  The further checks of
    a bracketed host (it must be an IP literal) and of a non-ASCII
    network location (NFKC) are not modelled: the function is exact for
    URLs whose network location, if there is one, is ASCII without
    brackets. *)
Definition urlsplit_path (url : string) : result string :=
  let url := lstrip url in
  let url := remove_unsafe url in
  let url := strip_scheme url in
  r <- (if Str.startswith "//" url then
          let '(netloc, url) := splitnetloc (Str.drop 2 url) in
          if xorb (Str.contains "[" netloc) (Str.contains "]" netloc)
          then Raise (ValueError "Invalid IPv6 URL")
          else Return url
        else Return url) ;;
  let url := Str.before "#" r in
  let url := Str.before "?" url in
  Return url.

(** [_ALWAYS_SAFE]: letters, digits and [_.-~] *)
Definition always_safe (c : ascii) : bool :=
  is_alpha c || is_digit c ||
  Ascii.eqb c "_" || Ascii.eqb c "." || Ascii.eqb c "-" || Ascii.eqb c "~".

Definition hex_digit (n : N) : ascii :=
  match n with
  | 0 => "0" | 1 => "1" | 2 => "2" | 3 => "3" | 4 => "4" | 5 => "5"
  | 6 => "6" | 7 => "7" | 8 => "8" | 9 => "9" | 10 => "A" | 11 => "B"
  | 12 => "C" | 13 => "D" | 14 => "E" | _ => "F"
  end%N%char.

(** ['%{:02X}'.format(byte)] *)
Definition percent (c : ascii) : string :=
  let n := N_of_ascii c in
  String "%" (String (hex_digit (n / 16)) (String (hex_digit (n mod 16)) EmptyString)).

(** [quote_plus(s)] with the default [safe='']: every byte outside
    [_ALWAYS_SAFE] is percent-encoded, except the space, which becomes a
    plus sign.  A [str] stands for its UTF-8 bytes. *)
Definition quote_plus (s : string) : string :=
  Str.concat_map
    (fun c => if always_safe c then String c EmptyString
              else if Ascii.eqb c " " then "+"
              else percent c) s.

(** [urlencode(query)] for a sequence of string pairs *)
Fixpoint urlencode (query : list (string * string)) : string :=
  match query with
  | [] => EmptyString
  | [(k, v)] => quote_plus k +:+ "=" +:+ quote_plus v
  | (k, v) :: rest => quote_plus k +:+ "=" +:+ quote_plus v +:+ "&" +:+ urlencode rest
  end.

End Urllib.

(** ** Text as Python decodes it

    A [str] is held as the bytes of its UTF-8 encoding, the bytes
    [quote_plus] and [urlencode] work on.  Where its characters matter, a
    text is the list of its characters, each one the bytes that encode
    it. *)

Module Unicode.

Definition byte (lo hi : N) (c : ascii) : bool :=
  N.leb lo (N_of_ascii c) && N.leb (N_of_ascii c) hi.

(** [value.decode('utf-8')] from inside a character: [need] counts the
    continuation bytes the character under way still lacks, [lo] and [hi]
    bound the next one and [cur] holds the bytes read of it.  A character
    is one byte below 128, or a lead byte and one to three continuation
    bytes; an encoding longer than needed, a surrogate and a character
    above U+10FFFF are refused by the bounds on the first continuation
    byte. *)
Fixpoint decode_from (cur : string) (need : nat) (lo hi : N) (value : string)
    : option (list string) :=
  match value with
  | EmptyString =>
      match need with
      | O => Some []
      | S _ => None
      end
  | String c rest =>
      match need with
      | O =>
          if byte 0 127 c then
            cons (String c EmptyString) <$> decode_from EmptyString 0 0%N 0%N rest
          else if byte 194 223 c then
            decode_from (String c EmptyString) 1 128%N 191%N rest
          else if byte 224 224 c then
            decode_from (String c EmptyString) 2 160%N 191%N rest
          else if byte 225 236 c || byte 238 239 c then
            decode_from (String c EmptyString) 2 128%N 191%N rest
          else if byte 237 237 c then
            decode_from (String c EmptyString) 2 128%N 159%N rest
          else if byte 240 240 c then
            decode_from (String c EmptyString) 3 144%N 191%N rest
          else if byte 241 243 c then
            decode_from (String c EmptyString) 3 128%N 191%N rest
          else if byte 244 244 c then
            decode_from (String c EmptyString) 3 128%N 143%N rest
          else None
      | S need' =>
          if byte lo hi c then
            let cur := cur +:+ String c EmptyString in
            match need' with
            | O => cons cur <$> decode_from EmptyString 0 0%N 0%N rest
            | S _ => decode_from cur need' 128%N 191%N rest
            end
          else None
      end
  end.

(** [value.decode('utf-8')]: the characters of [value], or [None] where
    Python raises [UnicodeDecodeError]. *)
Definition decode (value : string) : option (list string) :=
  decode_from EmptyString 0 0%N 0%N value.

(** The characters [str.strip()] removes: U+0009 to U+000D, U+001C to
    U+0020, U+0085, U+00A0, U+1680, U+2000 to U+200A, U+2028, U+2029,
    U+202F, U+205F and U+3000. *)
Definition isspace (ch : string) : bool :=
  match ch with
  | String c EmptyString => byte 9 13 c || byte 28 32 c
  | String c1 (String c2 EmptyString) =>
      byte 194 194 c1 && (byte 133 133 c2 || byte 160 160 c2)
  | String c1 (String c2 (String c3 EmptyString)) =>
      byte 225 225 c1 && byte 154 154 c2 && byte 128 128 c3
      || byte 226 226 c1 && byte 128 128 c2 &&
         (byte 128 138 c3 || byte 168 169 c3 || byte 175 175 c3)
      || byte 226 226 c1 && byte 129 129 c2 && byte 159 159 c3
      || byte 227 227 c1 && byte 128 128 c2 && byte 128 128 c3
  | _ => false
  end.

(** [s.lstrip()] *)
Fixpoint lstrip (chars : list string) : list string :=
  match chars with
  | [] => []
  | ch :: rest => if isspace ch then lstrip rest else chars
  end.

(** [s.strip()] *)
Definition strip (chars : list string) : list string :=
  rev (lstrip (rev (lstrip chars))).

(** The text the characters make. *)
Definition text (chars : list string) : string :=
  foldr (fun ch s => ch +:+ s) EmptyString chars.

End Unicode.

(** ** Tornado helpers *)

Module Tornado.

(** [tornado.escape.url_escape(value)], with its default [plus=True] *)
Definition url_escape (value : string) : string := Urllib.quote_plus value.

(** [tornado.httputil.url_concat(url, args)] for a dict [args], given as
    its items, on a URL without parameters or fragment: the encoded
    arguments are appended after a [?], or after a [&] when the URL has a
    query already (which Tornado parses and encodes again; here it is kept
    as it stands). *)
Definition url_concat (url : string) (args : list (string * string)) : string :=
  match args with
  | [] => url
  | _ =>
      let url :=
        match Str.last url with
        | Some c =>
            if Ascii.eqb c "?" || Ascii.eqb c "&" then url
            else url +:+ (if Str.contains "?" url then "&" else "?")
        | None => url +:+ "?"
        end in
      url +:+ Urllib.urlencode args
  end.

(** An [HTTPServerRequest]: the fields the module reads. *)
Record HTTPServerRequest : Type := {
  protocol : string;
  host : string;
  uri : string
}.

(** [RequestHandler._remove_control_chars_regex.sub(" ", s)], the regex
    being the class of U+0000 to U+0008 and U+000E to U+001F. *)
Definition _remove_control_chars (chars : list string) : list string :=
  (fun ch =>
     match ch with
     | String c EmptyString =>
         if Unicode.byte 0 8 c || Unicode.byte 14 31 c then " " else ch
     | _ => ch
     end) <$> chars.

(** [self.decode_argument(value, name)]: bytes that are not UTF-8 are
    answered with status 400. *)
Definition decode_argument (value : string) : result (list string) :=
  match Unicode.decode value with
  | Some chars => Return chars
  | None => Raise (HTTPError 400)
  end.

(** [self._get_arguments(name, source, strip=True)] on the values
    [source.get(name, [])]: each value is decoded, rid of control
    characters and stripped. *)
Fixpoint _get_arguments (values : list string) : result (list string) :=
  match values with
  | [] => Return []
  | v :: rest =>
      s <- decode_argument v ;;
      args <- _get_arguments rest ;;
      Return (Unicode.text (Unicode.strip (_remove_control_chars s)) :: args)
  end.

End Tornado.

(** ** Request handlers *)

(** The handler classes the module names, and any other class by name. *)
Inductive HandlerClass : Type :=
  | GoogleLoginHandler
  | GoogleOAuthHandler
  | GitHubLoginHandler
  | GitLabLoginHandler
  | OAuthLoginHandler
  | LoginHandler
  | LogoutHandler
  | MultiOAuthLoginHandler
  | OtherHandler (name : string).

Global Instance HandlerClass_eq_dec : EqDecision HandlerClass.
Proof. solve_decision. Defined.

(** A Tornado [RequestHandler] instance, as far as the module looks at it:
    the classes it is an instance of (the method resolution order of its
    type), its request, [self.request.arguments] (under each name of the
    query string and the form body the values submitted, in order, as the
    bytes the server received), and [self.hub.base_url]. *)
Record RequestHandler : Type := {
  mro : list HandlerClass;
  request : Tornado.HTTPServerRequest;
  arguments : gmap string (list string);
  hub_base_url : string
}.

(** [isinstance(handler, cls)] *)
Definition isinstance (handler : RequestHandler) (cls : HandlerClass) : bool :=
  bool_decide (cls ∈ mro handler).

(** [self.get_argument(name, default)]: every value submitted under
    [name] is decoded, which fails with status 400 on bytes that are not
    UTF-8; the last one is returned, rid of control characters and
    stripped, and [default] when there is none. *)
Definition get_argument (self : RequestHandler) (name : string)
    (default : option string) : result (option string) :=
  args <- Tornado._get_arguments (from_option id [] (arguments self !! name)) ;;
  Return (match last args with
          | Some v => Some v
          | None => default
          end).

(** The tornado [Application] is only handed on to the sub-authenticators. *)
Definition Application : Type := string.

(** ** Sub-authenticators *)

Module Authenticator.

(** An instance of one provider's authenticator class
    ([GoogleOAuthenticator], [GitHubOAuthenticator], [GitLabOAuthenticator]
    or a configured replacement): the attributes and methods the
    dispatcher uses. *)
Record t : Type := {
  client_id : option string;
  client_secret : option string;
  scope : option (list string);
  oauth_callback_url : option string;
  get_handlers : Application -> list (string * HandlerClass);
  authenticate : RequestHandler -> gmap string string -> result (option string)
}.

End Authenticator.

(** [dict(pairs)]: a later pair overrides an earlier one with the same key. *)
Definition dict {V} (pairs : list (string * V)) : gmap string V :=
  foldl (fun d kv => <[kv.1 := kv.2]> d) ∅ pairs.

(** [d[key]] *)
Definition subscript {V} (d : gmap string V) (key : string) : result V :=
  match d !! key with
  | Some v => Return v
  | None => Raise (KeyError key)
  end.

(** [self.config.section.attr] on the traitlets [Config] object
    [self.config], held as the attributes set under its lower-case keys.
    For a key nothing was set under, [Config] hands out an empty lazy
    placeholder, so the read of [attr] raises [AttributeError] there as it
    does on a section that lacks [attr]. *)
Definition config_getattr (config : gmap string (gmap string (option string)))
    (section attr : string) : result (option string) :=
  match config !! section with
  | None => Raise (AttributeError attr)
  | Some obj =>
      match obj !! attr with
      | None => Raise (AttributeError attr)
      | Some v => Return v
      end
  end.

(** ** The dispatcher *)

Module MultiOAuthenticator.

(** A [MultiOAuthenticator] instance.  The three sub-authenticators are
    the instances the [google_class], [github_class] and [gitlab_class]
    defaults build; [login_url] is the method inherited from
    [OAuthenticator]; [config] holds the attributes set on [self.config];
    the last three fields are the name-mangled private attributes. *)
Record t : Type := {
  enable_google : bool;
  enable_github : bool;
  enable_gitlab : bool;
  google_authenticator : Authenticator.t;
  github_authenticator : Authenticator.t;
  gitlab_authenticator : Authenticator.t;
  config : gmap string (gmap string (option string));
  login_url : string -> string;
  __client_id : option string;
  __client_secret : option string;
  __scope : option (list string)
}.

(** [__init__]: the traits as configured, the three private attributes
    set to [None]. *)
Definition __init__ (enable_google enable_github enable_gitlab : bool)
    (google_authenticator github_authenticator gitlab_authenticator : Authenticator.t)
    (config : gmap string (gmap string (option string)))
    (login_url : string -> string) : t :=
  {| enable_google := enable_google;
     enable_github := enable_github;
     enable_gitlab := enable_gitlab;
     google_authenticator := google_authenticator;
     github_authenticator := github_authenticator;
     gitlab_authenticator := gitlab_authenticator;
     config := config;
     login_url := login_url;
     __client_id := None;
     __client_secret := None;
     __scope := None |}.

(** The three read-only properties. *)
Definition client_id (self : t) : option string := __client_id self.
Definition client_secret (self : t) : option string := __client_secret self.
Definition scope (self : t) : option (list string) := __scope self.

(** Assigning to a property defined without a setter: Python raises
    [AttributeError] and the object stays as it is. *)
Definition assign_property (self : t) (name : string) : t * result unit :=
  (self, Raise (AttributeError name)).

Definition set_oauth_tokens (self : t) (subauth : Authenticator.t) : t :=
  {| enable_google := enable_google self;
     enable_github := enable_github self;
     enable_gitlab := enable_gitlab self;
     google_authenticator := google_authenticator self;
     github_authenticator := github_authenticator self;
     gitlab_authenticator := gitlab_authenticator self;
     config := config self;
     login_url := login_url self;
     __client_id := Authenticator.client_id subauth;
     __client_secret := Authenticator.client_secret subauth;
     __scope := Authenticator.scope subauth |}.

(** The value of an [if value: return value] test: the string when it is
    truthy. *)
Definition if_truthy (v : option string) : option string :=
  match v with
  | Some s => if String.eqb s "" then None else Some s
  | None => None
  end.

(** Lines 158-164: the callback URL made from the handler's own request. *)
Definition callback_url_from_request (handler : RequestHandler) : result string :=
  path <- Urllib.urlsplit_path (Tornado.uri (request handler)) ;;
  Return (Tornado.protocol (request handler) +:+ "://" +:+
          Tornado.host (request handler) +:+
          Str.replace "/login" "/callback" path).

(** [get_callback_url(handler)]: the object after the call and what the
    call returns or raises.  The three [if] statements run one after the
    other; each one that applies overwrites the cached credentials and
    returns only when its callback URL is truthy. *)
Definition get_callback_url (self : t) (handler : option RequestHandler)
    : t * result string :=
  match handler with
  | None => (self, Raise (ValueError "MultiAuthenticator only works with a handler"))
  | Some handler =>
      let '(self, returned) :=
        if isinstance handler GoogleLoginHandler then
          let self := set_oauth_tokens self (google_authenticator self) in
          match if_truthy (Authenticator.oauth_callback_url (google_authenticator self)) with
          | Some url => (self, Some (Return url))
          | None => (self, None)
          end
        else (self, None) in
      match returned with
      | Some r => (self, r)
      | None =>
      let '(self, returned) :=
        if isinstance handler GitHubLoginHandler then
          let self := set_oauth_tokens self (github_authenticator self) in
          match config_getattr (config self) "github_authenticator" "oauth_callback_url" with
          | Raise e => (self, Some (Raise e))
          | Return v =>
              match if_truthy v with
              | Some url => (self, Some (Return url))
              | None => (self, None)
              end
          end
        else (self, None) in
      match returned with
      | Some r => (self, r)
      | None =>
      let '(self, returned) :=
        if isinstance handler GitLabLoginHandler then
          let self := set_oauth_tokens self (gitlab_authenticator self) in
          match config_getattr (config self) "gitlab_authenticator" "oauth_callback_url" with
          | Raise e => (self, Some (Raise e))
          | Return v =>
              match if_truthy v with
              | Some url => (self, Some (Return url))
              | None => (self, None)
              end
          end
        else (self, None) in
      match returned with
      | Some r => (self, r)
      | None => (self, callback_url_from_request handler)
      end end end
  end.

Definition get_handlers (self : t) (app : Application)
    : result (list (string * HandlerClass)) :=
  let h := [("/login", MultiOAuthLoginHandler)] in
  h <- (if enable_google self then
          let handlers := dict (Authenticator.get_handlers (google_authenticator self) app) in
          login <- subscript handlers "/oauth_login" ;;
          callback <- subscript handlers "/oauth_callback" ;;
          Return (h ++ [("/google/login", login); ("/google/callback", callback)])
        else Return h) ;;
  h <- (if enable_github self then
          let handlers := dict (Authenticator.get_handlers (github_authenticator self) app) in
          login <- subscript handlers "/oauth_login" ;;
          callback <- subscript handlers "/oauth_callback" ;;
          Return (h ++ [("/github/login", login); ("/github/callback", callback)])
        else Return h) ;;
  h <- (if enable_gitlab self then
          let handlers := dict (Authenticator.get_handlers (gitlab_authenticator self) app) in
          login <- subscript handlers "/oauth_login" ;;
          callback <- subscript handlers "/oauth_callback" ;;
          Return (h ++ [("/gitlab/login", login); ("/gitlab/callback", callback)])
        else Return h) ;;
  Return h.

(** [authenticate(handler, data)]: the value of the coroutine. *)
Definition authenticate (self : t) (handler : RequestHandler)
    (data : gmap string string) : result (option string) :=
  if isinstance handler GoogleOAuthHandler then
    Authenticator.authenticate (google_authenticator self) handler data
  else
    Authenticator.authenticate (github_authenticator self) handler data.

(** What a caller can do with the object through its public names. *)
Inductive call : Type :=
  | Read_client_id
  | Read_client_secret
  | Read_scope
  | Assign_client_id (v : option string)
  | Assign_client_secret (v : option string)
  | Assign_scope (v : option (list string))
  | Call_set_oauth_tokens (subauth : Authenticator.t)
  | Call_get_callback_url (handler : option RequestHandler)
  | Call_get_handlers (app : Application)
  | Call_authenticate (handler : RequestHandler) (data : gmap string string).

(** The object after a call. *)
Definition after (self : t) (c : call) : t :=
  match c with
  | Read_client_id | Read_client_secret | Read_scope => self
  | Assign_client_id _ => fst (assign_property self "client_id")
  | Assign_client_secret _ => fst (assign_property self "client_secret")
  | Assign_scope _ => fst (assign_property self "scope")
  | Call_set_oauth_tokens subauth => set_oauth_tokens self subauth
  | Call_get_callback_url handler => fst (get_callback_url self handler)
  | Call_get_handlers _ => self
  | Call_authenticate _ _ => self
  end.

End MultiOAuthenticator.

(** ** The chooser page handler *)

Module MultiOAuthLoginHandler.

(** What [render_template('nlm/login.html', ...)] is given. *)
Record Page : Type := {
  template : string;
  next : string;
  multiauth : list (string * bool);
  login_error : option string;
  authenticator_login_url : string
}.

(** What the handler sends: [self.redirect(url)] or [self.finish(html)],
    with the status of the response. *)
Inductive Response : Type :=
  | Redirect (status : Z) (location : string)
  | Finish (status : Z) (html : Page).

(** [self.redirect(url, permanent=False)] *)
Definition redirect (url : string) (permanent : bool) : Response :=
  Redirect (if permanent then 301 else 302) url.

(** [self.finish(html)] on a response whose status was not changed *)
Definition finish (html : Page) : Response := Finish 200 html.

(** [_render]: reading [next] can fail, and then nothing is rendered. *)
Definition _render (authenticator : MultiOAuthenticator.t) (self : RequestHandler)
    (login_error : option string) : result Page :=
  let context :=
    [("google", MultiOAuthenticator.enable_google authenticator);
     ("github", MultiOAuthenticator.enable_github authenticator);
     ("gitlab", MultiOAuthenticator.enable_gitlab authenticator)] in
  nextval <- get_argument self "next" (Some "") ;;
  let nextval := default "" nextval in
  Return
    {| template := "nlm/login.html";
       next := Tornado.url_escape nextval;
       multiauth := context;
       login_error := login_error;
       authenticator_login_url :=
         Tornado.url_concat
           (MultiOAuthenticator.login_url authenticator (hub_base_url self))
           [("next", nextval)] |}.

(** The truth value of [flag and self.get_argument(name, None)]: the
    argument is read only when [flag] holds. *)
Definition and_argument (flag : bool) (self : RequestHandler) (name : string)
    : result bool :=
  if flag then
    v <- get_argument self name None ;;
    Return (truthy v)
  else Return false.

(** [post]: [authenticator] is [self.authenticator].  An exception leaves
    the method before anything is sent. *)
Definition post (authenticator : MultiOAuthenticator.t) (self : RequestHandler)
    : result Response :=
  nextval <- get_argument self "next" (Some "") ;;
  let concat_data := [("next", default "" nextval)] in
  google <- and_argument (MultiOAuthenticator.enable_google authenticator)
              self "login_google" ;;
  if google then
    let login_url :=
      Tornado.protocol (request self) +:+ "://" +:+ Tornado.host (request self) +:+
      hub_base_url self +:+ "google/login" in
    Return (redirect (Tornado.url_concat login_url concat_data) false)
  else
  github <- and_argument (MultiOAuthenticator.enable_github authenticator)
              self "login_github" ;;
  if github then
    let login_url :=
      Tornado.protocol (request self) +:+ "://" +:+ Tornado.host (request self) +:+
      hub_base_url self +:+ "github/login" in
    Return (redirect (Tornado.url_concat login_url concat_data) false)
  else
  gitlab <- and_argument (MultiOAuthenticator.enable_gitlab authenticator)
              self "login_gitlab" ;;
  if gitlab then
    let login_url :=
      Tornado.protocol (request self) +:+ "://" +:+ Tornado.host (request self) +:+
      hub_base_url self +:+ "gitlab/login" in
    Return (redirect (Tornado.url_concat login_url concat_data) false)
  else
    html <- _render authenticator self (Some "Unknown or missing authenticator") ;;
    Return (finish html).



End MultiOAuthLoginHandler.

(** ** Vocabulary of the specification *)

(** The provider keys, in registry order. *)
Inductive ProviderKey : Type := google | github | gitlab.

Global Instance ProviderKey_eq_dec : EqDecision ProviderKey.
Proof. solve_decision. Defined.

Definition registry : list ProviderKey := [google; github; gitlab].

Definition key_name (k : ProviderKey) : string :=
  match k with
  | google => "google"
  | github => "github"
  | gitlab => "gitlab"
  end.

(** The form field of a provider's button on the chooser page. *)
Definition flag_name (k : ProviderKey) : string := "login_" +:+ key_name k.

Definition enabled (self : MultiOAuthenticator.t) (k : ProviderKey) : bool :=
  match k with
  | google => MultiOAuthenticator.enable_google self
  | github => MultiOAuthenticator.enable_github self
  | gitlab => MultiOAuthenticator.enable_gitlab self
  end.

Definition authenticator_of (self : MultiOAuthenticator.t) (k : ProviderKey)
    : Authenticator.t :=
  match k with
  | google => MultiOAuthenticator.google_authenticator self
  | github => MultiOAuthenticator.github_authenticator self
  | gitlab => MultiOAuthenticator.gitlab_authenticator self
  end.

Definition enabled_keys (self : MultiOAuthenticator.t) : list ProviderKey :=
  List.filter (enabled self) registry.

(** The login handler class [get_callback_url] tests for each provider. *)
Definition login_class (k : ProviderKey) : HandlerClass :=
  match k with
  | google => GoogleLoginHandler
  | github => GitHubLoginHandler
  | gitlab => GitLabLoginHandler
  end.

(** The handler is an instance of the login handler class of [k] and of
    no other provider's. *)
Definition owns (k : ProviderKey) (handler : RequestHandler) : Prop :=
  isinstance handler (login_class k) = true /\
  forall k', k' <> k -> isinstance handler (login_class k') = false.

(** The handler is an instance of no provider's login handler class. *)
Definition no_login_class (handler : RequestHandler) : Prop :=
  isinstance handler GoogleLoginHandler = false /\
  isinstance handler GitHubLoginHandler = false /\
  isinstance handler GitLabLoginHandler = false.

(** The handler is an instance of one of the handler classes provider [k]
    registers. *)
Definition matches (self : MultiOAuthenticator.t) (app : Application)
    (k : ProviderKey) (handler : RequestHandler) : bool :=
  existsb (fun route => isinstance handler route.2)
          (Authenticator.get_handlers (authenticator_of self k) app).

(** The provider's own handler map has a login and a callback handler. *)
Definition has_oauth_handlers (a : Authenticator.t) (app : Application) : Prop :=
  is_Some (dict (Authenticator.get_handlers a app) !! "/oauth_login") /\
  is_Some (dict (Authenticator.get_handlers a app) !! "/oauth_callback").

(** The credential context of the dispatcher, and a provider's own triple. *)
Definition credentials (self : MultiOAuthenticator.t)
    : option string * option string * option (list string) :=
  (MultiOAuthenticator.client_id self,
   MultiOAuthenticator.client_secret self,
   MultiOAuthenticator.scope self).

Definition credentials_of (a : Authenticator.t)
    : option string * option string * option (list string) :=
  (Authenticator.client_id a, Authenticator.client_secret a, Authenticator.scope a).

(** No [if] block of [get_callback_url] returns for this handler: where the
    handler is a provider's login handler, the callback URL read for that
    provider is there and is not truthy. *)
Definition no_configured_url (self : MultiOAuthenticator.t)
    (handler : RequestHandler) : Prop :=
  (isinstance handler GoogleLoginHandler = true ->
     MultiOAuthenticator.if_truthy
       (Authenticator.oauth_callback_url
          (MultiOAuthenticator.google_authenticator self)) = None) /\
  (isinstance handler GitHubLoginHandler = true ->
     exists v, config_getattr (MultiOAuthenticator.config self)
                 "github_authenticator" "oauth_callback_url" = Return v /\
               MultiOAuthenticator.if_truthy v = None) /\
  (isinstance handler GitLabLoginHandler = true ->
     exists v, config_getattr (MultiOAuthenticator.config self)
                 "gitlab_authenticator" "oauth_callback_url" = Return v /\
               MultiOAuthenticator.if_truthy v = None).

(** A value was submitted under the name. *)
Definition submitted (self : RequestHandler) (name : string) : bool :=
  match arguments self !! name with
  | Some (_ :: _) => true
  | _ => false
  end.

(** Every value submitted under the name is valid UTF-8. *)
Definition decodable (self : RequestHandler) (name : string) : bool :=
  forallb (fun v => bool_decide (is_Some (Unicode.decode v)))
          (from_option id [] (arguments self !! name)).

(** The test of one branch of [post]: the provider is enabled and
    [get_argument] returns a non-empty value for its flag. *)
Definition selected (authenticator : MultiOAuthenticator.t) (self : RequestHandler)
    (k : ProviderKey) : result bool :=
  MultiOAuthLoginHandler.and_argument (enabled authenticator k) self (flag_name k).

(** The first provider of [keys] whose test holds.  The tests are made in
    order and end at that provider; one that raises ends them too. *)
Fixpoint first_selected (authenticator : MultiOAuthenticator.t)
    (self : RequestHandler) (keys : list ProviderKey)
    : result (option ProviderKey) :=
  match keys with
  | [] => Return None
  | k :: rest =>
      b <- selected authenticator self k ;;
      if b then Return (Some k) else first_selected authenticator self rest
  end.

(** A request path in origin form: it starts with one slash and holds no
    [?], no [#] and none of the bytes [urlsplit] removes. *)
Definition origin_path (p : string) : bool :=
  Str.startswith "/" p && negb (Str.startswith "//" p) &&
  Str.forallb (fun c => negb (Urllib.unsafe_byte c || Ascii.eqb c "?" || Ascii.eqb c "#")) p.

(** A URL scheme as [urlsplit] accepts one: a letter, then letters, digits
    and [+-.]. *)
Definition valid_scheme (s : string) : bool :=
  match s with
  | EmptyString => false
  | String c _ => Urllib.is_alpha c && Str.forallb Urllib.scheme_char s
  end.

(** A host name of ASCII characters, free of the characters that end or
    bracket a network location and of the bytes [urlsplit] removes. *)
Definition plain_host (h : string) : bool :=
  Str.forallb (fun c => negb (Urllib.netloc_delim c || Urllib.unsafe_byte c ||
                              Ascii.eqb c "[" || Ascii.eqb c "]" ||
                              N.leb 128 (N_of_ascii c))) h.

(** A hub prefix: empty or a rooted path, free of [?], [#] and the bytes
    [urlsplit] removes. *)
Definition plain_prefix (p : string) : bool :=
  (String.eqb p "" || Str.startswith "/" p) &&
  Str.forallb (fun c => negb (Urllib.unsafe_byte c || Ascii.eqb c "?" ||
                              Ascii.eqb c "#")) p.

(** The request URI is the path [p], alone or followed by a query. *)
Definition request_target (uri p : string) : Prop :=
  uri = p \/ exists q, uri = p +:+ "?" +:+ q.

(** The two paths [get_handlers] registers for a provider. *)
Definition provider_paths (k : ProviderKey) : list string :=
  ["/" +:+ key_name k +:+ "/login"; "/" +:+ key_name k +:+ "/callback"].

(** The characters [url_escape] lets through or produces: letters, digits,
    [_.-~], the percent sign and the plus sign. *)
Definition escaped_char (c : ascii) : bool :=
  Urllib.always_safe c || Ascii.eqb c "%" || Ascii.eqb c "+".

(** Two dispatchers with the same sub-authenticators and the same
    [self.config]; the enable flags and the cached credentials may differ. *)
Definition same_providers (self self' : MultiOAuthenticator.t) : Prop :=
  (forall k, authenticator_of self k = authenticator_of self' k) /\
  MultiOAuthenticator.config self = MultiOAuthenticator.config self'.

(** ** A sample deployment *)

Module Sample.

Definition app : Application := "jupyterhub".

Definition google_sub : Authenticator.t :=
  {| Authenticator.client_id := Some "google-client";
     Authenticator.client_secret := Some "google-secret";
     Authenticator.scope := Some ["openid"; "email"];
     Authenticator.oauth_callback_url := None;
     Authenticator.get_handlers := fun _ =>
       [("/oauth_login", GoogleLoginHandler); ("/oauth_callback", GoogleOAuthHandler)];
     Authenticator.authenticate := fun _ _ => Return (Some "google-user") |}.

Definition github_sub : Authenticator.t :=
  {| Authenticator.client_id := Some "github-client";
     Authenticator.client_secret := Some "github-secret";
     Authenticator.scope := Some [];
     Authenticator.oauth_callback_url := None;
     Authenticator.get_handlers := fun _ =>
       [("/oauth_login", GitHubLoginHandler);
        ("/oauth_callback", OtherHandler "OAuthCallbackHandler")];
     Authenticator.authenticate := fun _ _ => Return (Some "github-user") |}.

Definition gitlab_sub : Authenticator.t :=
  {| Authenticator.client_id := Some "gitlab-client";
     Authenticator.client_secret := Some "gitlab-secret";
     Authenticator.scope := Some ["read_user"];
     Authenticator.oauth_callback_url := None;
     Authenticator.get_handlers := fun _ =>
       [("/oauth_login", GitLabLoginHandler);
        ("/oauth_callback", OtherHandler "OAuthCallbackHandler")];
     Authenticator.authenticate := fun _ _ => Return (Some "gitlab-user") |}.

(** The same provider with a callback URL configured on the adapter. *)
Definition with_callback_url (a : Authenticator.t) (url : string) : Authenticator.t :=
  {| Authenticator.client_id := Authenticator.client_id a;
     Authenticator.client_secret := Authenticator.client_secret a;
     Authenticator.scope := Authenticator.scope a;
     Authenticator.oauth_callback_url := Some url;
     Authenticator.get_handlers := Authenticator.get_handlers a;
     Authenticator.authenticate := Authenticator.authenticate a |}.

Definition login_url (base_url : string) : string := base_url +:+ "oauth_login".

(** A [self.config] on which both lower-case sections exist, without a
    callback URL. *)
Definition config_unset : gmap string (gmap string (option string)) :=
  {[ "github_authenticator" := {[ "oauth_callback_url" := None ]};
     "gitlab_authenticator" := {[ "oauth_callback_url" := None ]} ]}.

(** All three providers enabled, no callback URL configured anywhere. *)
Definition hub : MultiOAuthenticator.t :=
  MultiOAuthenticator.__init__ true true true google_sub github_sub gitlab_sub
    config_unset login_url.

(** Only GitHub enabled. *)
Definition hub_github_only : MultiOAuthenticator.t :=
  MultiOAuthenticator.__init__ false true false google_sub github_sub gitlab_sub
    config_unset login_url.

(** Only GitLab enabled. *)
Definition hub_gitlab_only : MultiOAuthenticator.t :=
  MultiOAuthenticator.__init__ false false true google_sub github_sub gitlab_sub
    config_unset login_url.

(** Every adapter has its callback URL configured; [self.config] has no
    lower-case section. *)
Definition hub_configured : MultiOAuthenticator.t :=
  MultiOAuthenticator.__init__ true true true
    (with_callback_url google_sub "https://login.example.org/google/callback")
    (with_callback_url github_sub "https://login.example.org/github/callback")
    (with_callback_url gitlab_sub "https://login.example.org/gitlab/callback")
    ∅ login_url.

(** The same adapters; [self.config] carries callback URLs of its own. *)
Definition config_other : gmap string (gmap string (option string)) :=
  {[ "github_authenticator" :=
       {[ "oauth_callback_url" := Some "https://other.example.org/github" ]};
     "gitlab_authenticator" :=
       {[ "oauth_callback_url" := Some "https://other.example.org/gitlab" ]} ]}.

Definition hub_configured_other : MultiOAuthenticator.t :=
  MultiOAuthenticator.__init__ true true true
    (with_callback_url google_sub "https://login.example.org/google/callback")
    (with_callback_url github_sub "https://login.example.org/github/callback")
    (with_callback_url gitlab_sub "https://login.example.org/gitlab/callback")
    config_other login_url.

Definition request_of (uri : string) : Tornado.HTTPServerRequest :=
  {| Tornado.protocol := "https"; Tornado.host := "hub.example.org"; Tornado.uri := uri |}.

Definition handler_of (classes : list HandlerClass) (uri : string)
    (form : gmap string (list string)) : RequestHandler :=
  {| mro := classes; request := request_of uri; arguments := form;
     hub_base_url := "/hub/" |}.

Definition google_login : RequestHandler :=
  handler_of [GoogleLoginHandler; OAuthLoginHandler] "/hub/google/login" ∅.

Definition github_login : RequestHandler :=
  handler_of [GitHubLoginHandler; OAuthLoginHandler] "/hub/github/login" ∅.

Definition gitlab_login : RequestHandler :=
  handler_of [GitLabLoginHandler; OAuthLoginHandler] "/hub/gitlab/login" ∅.

Definition google_callback : RequestHandler :=
  handler_of [GoogleOAuthHandler] "/hub/google/callback?code=4%2Fabc&state=xyz" ∅.

Definition gitlab_callback : RequestHandler :=
  handler_of [OtherHandler "OAuthCallbackHandler"]
    "/hub/gitlab/callback?code=abc&state=xyz" ∅.

Definition logout : RequestHandler :=
  handler_of [LogoutHandler] "/hub/logout" ∅.

(** The chooser form as the page posts it. *)
Definition chooser (form : gmap string (list string)) : RequestHandler :=
  handler_of [MultiOAuthLoginHandler; OAuthLoginHandler] "/hub/login" form.

(** The chooser form with the Google button's field sent as one blank:
    [next=%2Ffoo&login_google=%20]. *)
Definition blank_google_form : gmap string (list string) :=
  {[ "next" := ["/foo"]; "login_google" := [" "] ]}.

(** The chooser form with the GitHub button pressed:
    [next=%2Ffoo&login_github=1]. *)
Definition github_form : gmap string (list string) :=
  {[ "next" := ["/foo"]; "login_github" := ["1"] ]}.

(** The same form with the Google field sent blank as well. *)
Definition blank_google_github_form : gmap string (list string) :=
  {[ "next" := ["/foo"]; "login_google" := [" "]; "login_github" := ["1"] ]}.

(** A byte that is no UTF-8 text: the value of [next=%FF]. *)
Definition not_utf8 : string := String "255" EmptyString.

(** The GitHub button pressed, with [next=%FF]. *)
Definition bad_next_github_form : gmap string (list string) :=
  {[ "next" := [not_utf8]; "login_github" := ["1"] ]}.

(** No button pressed, with [next=%FF]. *)
Definition bad_next_form : gmap string (list string) :=
  {[ "next" := [not_utf8] ]}.

(** The GitLab button pressed, with [next=%2Ffoo]. *)
Definition gitlab_form : gmap string (list string) :=
  {[ "next" := ["/foo"]; "login_gitlab" := ["1"] ]}.

(** A provider whose handler map lacks the callback handler. *)
Definition login_only_sub : Authenticator.t :=
  {| Authenticator.client_id := Some "gitlab-client";
     Authenticator.client_secret := Some "gitlab-secret";
     Authenticator.scope := Some ["read_user"];
     Authenticator.oauth_callback_url := None;
     Authenticator.get_handlers := fun _ => [("/oauth_login", GitLabLoginHandler)];
     Authenticator.authenticate := fun _ _ => Return None |}.

(** A provider whose handler map names the login handler twice. *)
Definition twice_login_sub : Authenticator.t :=
  {| Authenticator.client_id := Some "google-client";
     Authenticator.client_secret := Some "google-secret";
     Authenticator.scope := Some ["openid"; "email"];
     Authenticator.oauth_callback_url := None;
     Authenticator.get_handlers := fun _ =>
       [("/oauth_login", OAuthLoginHandler);
        ("/oauth_login", GoogleLoginHandler);
        ("/oauth_callback", GoogleOAuthHandler)];
     Authenticator.authenticate := fun _ _ => Return None |}.

(** GitLab enabled with the provider that lacks the callback handler. *)
Definition hub_broken_gitlab : MultiOAuthenticator.t :=
  MultiOAuthenticator.__init__ true true true google_sub github_sub login_only_sub
    config_unset login_url.

(** Google disabled, its callback URL configured on the adapter. *)
Definition hub_google_disabled : MultiOAuthenticator.t :=
  MultiOAuthenticator.__init__ false true true
    (with_callback_url google_sub "https://login.example.org/google/callback")
    github_sub gitlab_sub config_unset login_url.

(** The same adapters and [self.config], Google enabled. *)
Definition hub_google_enabled : MultiOAuthenticator.t :=
  MultiOAuthenticator.__init__ true true true
    (with_callback_url google_sub "https://login.example.org/google/callback")
    github_sub gitlab_sub config_unset login_url.

(** A Google adapter whose callback URL is the empty string. *)
Definition hub_blank_url : MultiOAuthenticator.t :=
  MultiOAuthenticator.__init__ true true true
    (with_callback_url google_sub EmptyString)
    github_sub gitlab_sub config_unset login_url.

End Sample.

(** * Properties *)

(** ** Strings *)

Section StringFacts.

Lemma append_cons c s t : String c s +:+ t = String c (s +:+ t).
Proof. reflexivity. Qed.

Lemma append_nil_l t : "" +:+ t = t.
Proof. reflexivity. Qed.

Lemma append_nil_r s : s +:+ "" = s.
Proof. induction s as [|c s IH]; [done|]. by rewrite append_cons, IH. Qed.

Lemma append_assoc s t u : (s +:+ t) +:+ u = s +:+ t +:+ u.
Proof. induction s as [|c s IH]; [done|]. by rewrite !append_cons, IH. Qed.

Lemma contains_app c a b :
  Str.contains c (a +:+ b) = Str.contains c a || Str.contains c b.
Proof.
  induction a as [|x a IH]; [done|].
  rewrite append_cons. simpl. rewrite IH. by rewrite orb_assoc.
Qed.

Lemma before_app c a b :
  Str.contains c a = false -> Str.before c (a +:+ b) = a +:+ Str.before c b.
Proof.
  induction a as [|x a IH]; [done|].
  rewrite append_cons. simpl. intros [Hx Ha]%orb_false_elim.
  rewrite Hx, append_cons. by rewrite IH.
Qed.

Lemma before_none c a : Str.contains c a = false -> Str.before c a = a.
Proof.
  intros H. rewrite <- (append_nil_r a) at 1.
  rewrite before_app by done. simpl. apply append_nil_r.
Qed.

Lemma before_hit c a b :
  Str.contains c a = false -> Str.before c (a +:+ String c b) = a.
Proof.
  intros H. rewrite before_app by done. simpl.
  rewrite Ascii.eqb_refl. apply append_nil_r.
Qed.

Lemma last_app a c b : Str.last (a +:+ String c b) = Str.last (String c b).
Proof.
  induction a as [|x a IH]; [done|].
  rewrite append_cons. simpl Str.last at 1.
  destruct (a +:+ String c b) eqn:E; [by destruct a|].
  exact IH.
Qed.

Lemma forallb_app f a b :
  Str.forallb f (a +:+ b) = Str.forallb f a && Str.forallb f b.
Proof.
  induction a as [|x a IH]; [done|].
  rewrite append_cons. simpl. rewrite IH. by rewrite andb_assoc.
Qed.

End StringFacts.

(** ** Replacing [/login] by [/callback] *)

Section ReplaceLogin.

Local Arguments Ascii.eqb : simpl never.

Local Ltac step a H :=
  destruct a as [|? a];
  [ rewrite ?append_cons, ?append_nil_l; simpl;
    rewrite ?andb_false_r; reflexivity
  | rewrite ?append_cons; simpl in *;
    match goal with
    | |- context [Ascii.eqb ?x ?y && _] =>
        destruct (Ascii.eqb x y); simpl in *; [|reflexivity]
    end ].

Lemma startswith_login_app a X :
  a <> "" ->
  Str.startswith "/login" a = false ->
  Str.startswith "/login" (a +:+ "/login" +:+ X) = false.
Proof.
  intros Hne H.
  destruct a as [|c1 a]; [done|]. clear Hne.
  rewrite append_cons. simpl in *.
  destruct (Ascii.eqb "/" c1); simpl in *; [|reflexivity].
  step a H. step a H. step a H. step a H. step a H.
  exact H.
Qed.

Lemma login_app rest :
  "/login" +:+ rest =
  String "/" (String "l" (String "o" (String "g" (String "i" (String "n" rest))))).
Proof. reflexivity. Qed.

Lemma replace_from_cons_miss c s :
  Str.startswith "/login" (String c s) = false ->
  Str.replace_from 0 "/login" "/callback" (String c s) =
  String c (Str.replace_from 0 "/login" "/callback" s).
Proof.
  intros H.
  change (Str.replace_from 0 "/login" "/callback" (String c s))
    with (if Str.startswith "/login" (String c s)
          then "/callback" +:+ Str.replace_from 5 "/login" "/callback" s
          else String c (Str.replace_from 0 "/login" "/callback" s)).
  by rewrite H.
Qed.

Lemma replace_from_login rest :
  Str.replace_from 0 "/login" "/callback" ("/login" +:+ rest) =
  "/callback" +:+ Str.replace_from 0 "/login" "/callback" rest.
Proof. rewrite login_app. reflexivity. Qed.

(** The first occurrence is replaced and the scan goes on behind it. *)
Lemma replace_login_app a rest :
  Str.occurs "/login" a = false ->
  Str.replace "/login" "/callback" (a +:+ "/login" +:+ rest) =
  a +:+ "/callback" +:+ Str.replace "/login" "/callback" rest.
Proof.
  unfold Str.replace. induction a as [|c a IH]; intros Hocc.
  - rewrite !append_nil_l. apply replace_from_login.
  - apply orb_false_elim in Hocc as [Hhere Hlater].
    rewrite !(append_cons c a), replace_from_cons_miss.
    + by rewrite IH.
    + rewrite <- (append_cons c a). by apply startswith_login_app.
Qed.

(** Without an occurrence nothing changes. *)
Lemma replace_login_none a :
  Str.occurs "/login" a = false ->
  Str.replace "/login" "/callback" a = a.
Proof.
  unfold Str.replace. induction a as [|c a IH]; intros Hocc; [done|].
  apply orb_false_elim in Hocc as [Hhere Hlater].
  rewrite replace_from_cons_miss by done. by rewrite IH.
Qed.

(** Every occurrence is replaced: a string cut at its occurrences of
    [/login] comes back joined by [/callback]. *)
Lemma replace_login_join parts :
  Forall (fun s => Str.occurs "/login" s = false) parts ->
  Str.replace "/login" "/callback" (Str.join "/login" parts) =
  Str.join "/callback" parts.
Proof.
  induction 1 as [|s rest Hs Hrest IH]; [done|].
  destruct rest as [|s' rest].
  - simpl. by apply replace_login_none.
  - change (Str.join "/login" (s :: s' :: rest))
      with (s +:+ "/login" +:+ Str.join "/login" (s' :: rest)).
    change (Str.join "/callback" (s :: s' :: rest))
      with (s +:+ "/callback" +:+ Str.join "/callback" (s' :: rest)).
    rewrite replace_login_app by done. by rewrite IH.
Qed.

End ReplaceLogin.

(** ** The path component of a request URI *)

Section UrlsplitFacts.

Local Arguments Ascii.eqb : simpl never.

Lemma forallb_contains f c p :
  Str.forallb f p = true -> f c = false -> Str.contains c p = false.
Proof.
  intros Hall Hc. induction p as [|x p IH]; [done|].
  simpl in *. apply andb_prop in Hall as [Hx Hp].
  rewrite IH by done. rewrite orb_false_r.
  destruct (Ascii.eqb_spec c x) as [->|]; [congruence|done].
Qed.

Lemma remove_unsafe_app a b :
  Urllib.remove_unsafe (a +:+ b) = Urllib.remove_unsafe a +:+ Urllib.remove_unsafe b.
Proof.
  induction a as [|x a IH]; [done|].
  rewrite append_cons. simpl. destruct (Urllib.unsafe_byte x); [done|].
  by rewrite append_cons, IH.
Qed.

Lemma remove_unsafe_id f a :
  (forall c, f c = true -> Urllib.unsafe_byte c = false) ->
  Str.forallb f a = true -> Urllib.remove_unsafe a = a.
Proof.
  intros Hf. induction a as [|x a IH]; [done|].
  simpl. intros [Hx Ha]%andb_prop. rewrite (Hf x Hx). by rewrite IH.
Qed.

Lemma strip_scheme_slash s : Urllib.strip_scheme (String "/" s) = String "/" s.
Proof. unfold Urllib.strip_scheme. by destruct (Str.after ":" (String "/" s)). Qed.

Lemma origin_path_inv p :
  origin_path p = true ->
  exists p', p = String "/" p' /\ Str.startswith "/" p' = false /\
    Urllib.remove_unsafe p = p /\
    Str.contains "?" p = false /\ Str.contains "#" p = false.
Proof.
  unfold origin_path. intros [[H1 H2]%andb_prop H3]%andb_prop.
  destruct p as [|c p']; [done|]. simpl in H1, H2.
  rewrite andb_true_r in H1. apply Ascii.eqb_eq in H1 as <-.
  exists p'. split; [done|]. split.
  { destruct p' as [|d p'']; [done|]. simpl in *.
    by destruct (Ascii.eqb "/" d). }
  split; [|split].
  - eapply remove_unsafe_id; [|exact H3]. intros c Hc. simpl in Hc.
    apply negb_true_iff in Hc.
    by apply orb_false_elim in Hc as [[Hc _]%orb_false_elim _].
  - by eapply forallb_contains.
  - by eapply forallb_contains.
Qed.

Lemma startswith_slash2 x :
  Str.startswith "//" (String "/" x) = Str.startswith "/" x.
Proof. destruct x; reflexivity. Qed.

Lemma startswith_slash_app a b :
  Str.startswith "/" a = false -> Str.startswith "/" b = false ->
  Str.startswith "/" (a +:+ b) = false.
Proof. destruct a; [done|]. by rewrite append_cons. Qed.

(** A path in origin form is the path component of itself, whatever query
    follows it. *)
Lemma urlsplit_path_origin_query p q :
  origin_path p = true ->
  Urllib.urlsplit_path (p +:+ "?" +:+ q) = Return p.
Proof.
  intros (p' & -> & Hp' & Hsafe & Hq & Hf)%origin_path_inv.
  unfold Urllib.urlsplit_path.
  rewrite append_cons. simpl Urllib.lstrip. rewrite <- append_cons.
  rewrite !remove_unsafe_app, Hsafe.
  rewrite append_cons, strip_scheme_slash, startswith_slash2.
  rewrite startswith_slash_app by done.
  unfold rbind. f_equal.
  change (Urllib.remove_unsafe "?" +:+ Urllib.remove_unsafe q)
    with (String "?" (Urllib.remove_unsafe q)).
  rewrite <- append_cons, before_app by done.
  change (Str.before "#" (String "?" (Urllib.remove_unsafe q)))
    with (String "?" (Str.before "#" (Urllib.remove_unsafe q))).
  by rewrite before_hit.
Qed.

Lemma urlsplit_path_origin p :
  origin_path p = true -> Urllib.urlsplit_path p = Return p.
Proof.
  intros (p' & -> & Hp' & Hsafe & Hq & Hf)%origin_path_inv.
  unfold Urllib.urlsplit_path.
  simpl Urllib.lstrip. rewrite Hsafe, strip_scheme_slash, startswith_slash2, Hp'.
  unfold rbind. f_equal.
  rewrite (before_none "#") by done. by rewrite (before_none "?").
Qed.

Lemma after_hit c a b :
  Str.contains c a = false -> Str.after c (a +:+ String c b) = Some b.
Proof.
  induction a as [|x a IH].
  - intros _. change ("" +:+ String c b) with (String c b).
    simpl. by rewrite Ascii.eqb_refl.
  - rewrite append_cons. simpl. intros [Hx Ha]%orb_false_elim.
    rewrite Hx. by apply IH.
Qed.

Lemma lstrip_alpha c s :
  Urllib.is_alpha c = true -> Urllib.lstrip (String c s) = String c s.
Proof.
  intros H. simpl. replace (Urllib.c0_control_or_space c) with false; [done|].
  symmetry. unfold Urllib.c0_control_or_space. apply N.leb_gt.
  unfold Urllib.is_alpha, Urllib.in_range in H. simpl in H.
  apply orb_prop in H as [[H _]%andb_prop|[H _]%andb_prop];
    apply N.leb_le in H; lia.
Qed.

Lemma scheme_char_safe c :
  Urllib.scheme_char c = true -> Urllib.unsafe_byte c = false.
Proof.
  intros H. unfold Urllib.unsafe_byte.
  destruct (Ascii.eqb_spec c "009") as [->|]; [done|].
  destruct (Ascii.eqb_spec c "013") as [->|]; [done|].
  destruct (Ascii.eqb_spec c "010") as [->|]; done.
Qed.

Lemma strip_scheme_valid scheme rest :
  valid_scheme scheme = true ->
  Urllib.strip_scheme (scheme +:+ String ":" rest) = rest.
Proof.
  unfold valid_scheme. destruct scheme as [|c s]; [done|].
  intros [Hc Hall]%andb_prop.
  assert (Hcolon : Str.contains ":" (String c s) = false)
    by by eapply forallb_contains.
  unfold Urllib.strip_scheme. rewrite (append_cons c s).
  rewrite <- (append_cons c s).
  rewrite after_hit, before_hit by done.
  by rewrite Hc, Hall.
Qed.

Lemma splitnetloc_host h x :
  plain_host h = true ->
  Urllib.splitnetloc (h +:+ String "/" x) = (h, String "/" x).
Proof.
  unfold plain_host. induction h as [|c h IH]; [done|].
  rewrite append_cons. simpl. intros [Hc Hh]%andb_prop.
  apply negb_true_iff in Hc.
  apply orb_false_elim in Hc
    as [[[[Hc _]%orb_false_elim _]%orb_false_elim _]%orb_false_elim _].
  by rewrite Hc, IH.
Qed.

(** After a valid scheme and a plain host, the rest of the URL is split
    like a request path. *)
Lemma urlsplit_path_netloc scheme h x :
  valid_scheme scheme = true ->
  plain_host h = true ->
  Urllib.urlsplit_path (scheme +:+ "://" +:+ h +:+ String "/" x) =
  Return (Str.before "?" (Str.before "#" (Urllib.remove_unsafe (String "/" x)))).
Proof.
  intros Hs Hh.
  assert (Hs' := Hs). unfold valid_scheme in Hs'.
  destruct scheme as [|c s]; [done|]. apply andb_prop in Hs' as [Hc Hall].
  unfold Urllib.urlsplit_path.
  rewrite (append_cons c s), lstrip_alpha by done.
  rewrite <- (append_cons c s).
  rewrite !remove_unsafe_app.
  rewrite (remove_unsafe_id Urllib.scheme_char (String c s))
    by auto using scheme_char_safe.
  assert (Hhsafe : Urllib.remove_unsafe h = h).
  { eapply remove_unsafe_id; [|exact Hh]. intros d Hd. simpl in Hd.
    apply negb_true_iff in Hd.
    by apply orb_false_elim in Hd
      as [[[[_ Hd]%orb_false_elim _]%orb_false_elim _]%orb_false_elim _]. }
  rewrite Hhsafe.
  change (Urllib.remove_unsafe "://") with "://".
  change ("://" +:+ ?r) with (String ":" ("//" +:+ r)).
  rewrite strip_scheme_valid by done.
  change (Urllib.remove_unsafe (String "/" x))
    with (String "/" (Urllib.remove_unsafe x)).
  change (Str.startswith "//" ("//" +:+ ?r)) with true. cbv iota.
  change (Str.drop 2 ("//" +:+ ?r)) with r.
  rewrite splitnetloc_host by done.
  rewrite (forallb_contains _ "[" h Hh), (forallb_contains _ "]" h Hh) by done.
  reflexivity.
Qed.

Lemma path_of_origin p :
  origin_path p = true ->
  Str.before "?" (Str.before "#" (Urllib.remove_unsafe p)) = p.
Proof.
  intros (p' & -> & Hp' & Hsafe & Hq & Hf)%origin_path_inv.
  rewrite Hsafe, (before_none "#") by done. by rewrite (before_none "?").
Qed.

Lemma path_of_origin_query p q :
  origin_path p = true ->
  Str.before "?" (Str.before "#" (Urllib.remove_unsafe (p +:+ "?" +:+ q))) = p.
Proof.
  intros (p' & -> & Hp' & Hsafe & Hq & Hf)%origin_path_inv.
  rewrite !remove_unsafe_app, Hsafe.
  change (Urllib.remove_unsafe "?" +:+ Urllib.remove_unsafe q)
    with (String "?" (Urllib.remove_unsafe q)).
  rewrite before_app by done.
  change (Str.before "#" (String "?" (Urllib.remove_unsafe q)))
    with (String "?" (Str.before "#" (Urllib.remove_unsafe q))).
  by rewrite before_hit.
Qed.

(** The absolute form of the same request target. *)
Lemma urlsplit_path_absolute scheme h p :
  valid_scheme scheme = true ->
  plain_host h = true ->
  origin_path p = true ->
  Urllib.urlsplit_path (scheme +:+ "://" +:+ h +:+ p) = Return p.
Proof.
  intros Hs Hh Hp.
  destruct (origin_path_inv p Hp) as (p' & Heq & _).
  rewrite Heq at 1. rewrite urlsplit_path_netloc by done.
  rewrite <- Heq. by rewrite path_of_origin.
Qed.

Lemma urlsplit_path_absolute_query scheme h p q :
  valid_scheme scheme = true ->
  plain_host h = true ->
  origin_path p = true ->
  Urllib.urlsplit_path (scheme +:+ "://" +:+ h +:+ p +:+ "?" +:+ q) = Return p.
Proof.
  intros Hs Hh Hp.
  destruct (origin_path_inv p Hp) as (p' & Heq & _).
  rewrite Heq at 1. rewrite (append_cons "/" p').
  rewrite urlsplit_path_netloc by done.
  rewrite <- (append_cons "/" p'), <- Heq. by rewrite path_of_origin_query.
Qed.

End UrlsplitFacts.

(** ** The credential context *)

Section Credentials.

Implicit Types (self : MultiOAuthenticator.t) (handler : RequestHandler).

Lemma credentials_set_oauth_tokens self subauth :
  credentials (MultiOAuthenticator.set_oauth_tokens self subauth) =
  credentials_of subauth.
Proof. reflexivity. Qed.

Lemma owns_inv k handler :
  owns k handler ->
  isinstance handler GoogleLoginHandler = bool_decide (k = google) /\
  isinstance handler GitHubLoginHandler = bool_decide (k = github) /\
  isinstance handler GitLabLoginHandler = bool_decide (k = gitlab).
Proof.
  intros [Hk Hother].
  pose proof (Hother google) as Hg.
  pose proof (Hother github) as Hh.
  pose proof (Hother gitlab) as Hl.
  destruct k; simpl in *;
    rewrite ?Hk, ?Hg, ?Hh, ?Hl by done; done.
Qed.

Local Ltac run_get_callback_url :=
  unfold MultiOAuthenticator.get_callback_url; simpl;
  repeat (match goal with
          | |- context [match MultiOAuthenticator.if_truthy ?v with _ => _ end] =>
              destruct (MultiOAuthenticator.if_truthy v) eqn:?
          | |- context [match config_getattr ?c ?s ?a with _ => _ end] =>
              destruct (config_getattr c s a) eqn:?
          | |- context [if isinstance ?h ?c then _ else _] =>
              destruct (isinstance h c) eqn:?
          end; simpl).

(** [get_callback_url] changes nothing but the three cached values. *)
Lemma get_callback_url_frame self (arg : option RequestHandler) :
  let self' := (MultiOAuthenticator.get_callback_url self arg).1 in
  (forall k, authenticator_of self' k = authenticator_of self k) /\
  (forall k, enabled self' k = enabled self k) /\
  MultiOAuthenticator.config self' = MultiOAuthenticator.config self.
Proof.
  destruct arg as [handler|]; [|by repeat split].
  run_get_callback_url; (split; [|split]); try intros []; reflexivity.
Qed.

(** After resolving the callback URL for a handler one provider owns, the
    cached credentials are that provider's, whatever the call returned. *)
Lemma credentials_after_get_callback_url self handler k :
  owns k handler ->
  credentials (MultiOAuthenticator.get_callback_url self (Some handler)).1 =
  credentials_of (authenticator_of self k).
Proof.
  intros (Hg & Hh & Hl)%owns_inv.
  unfold MultiOAuthenticator.get_callback_url. rewrite Hg, Hh, Hl.
  destruct k; simpl;
    repeat (match goal with
            | |- context [match MultiOAuthenticator.if_truthy ?v with _ => _ end] =>
                destruct (MultiOAuthenticator.if_truthy v) eqn:?
            | |- context [match config_getattr ?c ?s ?a with _ => _ end] =>
                destruct (config_getattr c s a) eqn:?
            end; simpl); reflexivity.
Qed.

(** When no [if] block returns, the URL comes from the request. *)
Lemma get_callback_url_falls_through self handler :
  no_configured_url self handler ->
  (MultiOAuthenticator.get_callback_url self (Some handler)).2 =
  MultiOAuthenticator.callback_url_from_request handler.
Proof.
  intros (Hg & Hh & Hl).
  unfold MultiOAuthenticator.get_callback_url.
  destruct (isinstance handler GoogleLoginHandler);
    simpl; [rewrite Hg by done|];
    (destruct (isinstance handler GitHubLoginHandler);
     simpl; [destruct Hh as (v & Hv & Hv'); [done|]; rewrite Hv, Hv'|]);
    (destruct (isinstance handler GitLabLoginHandler);
     simpl; [destruct Hl as (w & Hw & Hw'); [done|]; rewrite Hw, Hw'|]);
    reflexivity.
Qed.

(** A handler of no login class leaves the object as it is. *)
Lemma get_callback_url_no_login_class self handler :
  no_login_class handler ->
  MultiOAuthenticator.get_callback_url self (Some handler) =
  (self, MultiOAuthenticator.callback_url_from_request handler).
Proof.
  intros (Hg & Hh & Hl).
  unfold MultiOAuthenticator.get_callback_url. by rewrite Hg, Hh, Hl.
Qed.

(** The cached triple after a call is the old one or that of a provider
    whose login handler class the handler has. *)
Lemma credentials_get_callback_url_cases self handler :
  credentials (MultiOAuthenticator.get_callback_url self (Some handler)).1 =
  credentials self \/
  exists k, isinstance handler (login_class k) = true /\
    credentials (MultiOAuthenticator.get_callback_url self (Some handler)).1 =
    credentials_of (authenticator_of self k).
Proof.
  run_get_callback_url;
    first [ by left
          | by right; exists gitlab
          | by right; exists github
          | by right; exists google ].
Qed.

End Credentials.

(** ** Claims about the credential context *)

Section CredentialClaims.

Implicit Types (self : MultiOAuthenticator.t) (handler : RequestHandler).

(** C10: right after construction [client_id], [client_secret] and
    [scope] are all [None]; assigning to one of the three properties is
    refused and changes nothing; [set_oauth_tokens] overwrites the three
    together from one sub-authenticator; and no call changes them in any
    other way: after a call they are what they were, or they are the
    triple of the sub-authenticator handed to [set_oauth_tokens], or the
    call was [get_callback_url] and they are the triple of a provider
    whose login handler class the handler has. *)
Theorem credentials_initial_and_read_only :
  (forall eg eh el ga gh gl cfg lu,
      credentials (MultiOAuthenticator.__init__ eg eh el ga gh gl cfg lu) =
      (None, None, None)) /\
  (forall self name,
      MultiOAuthenticator.assign_property self name =
      (self, Raise (AttributeError name))) /\
  (forall self subauth,
      credentials (MultiOAuthenticator.set_oauth_tokens self subauth) =
      credentials_of subauth) /\
  (forall self c,
      credentials (MultiOAuthenticator.after self c) = credentials self \/
      (exists subauth,
          c = MultiOAuthenticator.Call_set_oauth_tokens subauth /\
          credentials (MultiOAuthenticator.after self c) = credentials_of subauth) \/
      (exists handler k,
          c = MultiOAuthenticator.Call_get_callback_url (Some handler) /\
          isinstance handler (login_class k) = true /\
          credentials (MultiOAuthenticator.after self c) =
          credentials_of (authenticator_of self k))).
Proof.
  split; [done|]. split; [done|]. split; [done|].
  intros self [| | | | | |subauth|[handler|]| |]; try (by left).
  - right; left. by exists subauth.
  - destruct (credentials_get_callback_url_cases self handler)
      as [Hsame|(k & Hk & Hcred)]; [by left|].
    right; right. by exists handler, k.
Qed.

(** C2, as the code has it: after attempt A resolves its callback URL
    and then attempt B, whose handler provider B owns, resolves its own,
    the credentials read from the dispatcher are provider B's: the last
    resolution decides, whatever the two calls returned. *)
Theorem credentials_follow_last_resolution self handlerA handlerB kB :
  owns kB handlerB ->
  let self1 := (MultiOAuthenticator.get_callback_url self (Some handlerA)).1 in
  let self2 := (MultiOAuthenticator.get_callback_url self1 (Some handlerB)).1 in
  credentials self2 = credentials_of (authenticator_of self kB).
Proof.
  intros HB self1 self2. unfold self2.
  rewrite (credentials_after_get_callback_url self1 handlerB kB HB).
  unfold self1.
  by destruct (get_callback_url_frame self (Some handlerA)) as (-> & _).
Qed.

Lemma credentials_follow_last_resolution_witness :
  credentials
    (MultiOAuthenticator.get_callback_url
       (MultiOAuthenticator.get_callback_url Sample.hub (Some Sample.google_login)).1
       (Some Sample.github_login)).1 =
  credentials_of Sample.github_sub.
Proof.
  apply (credentials_follow_last_resolution Sample.hub Sample.google_login
           Sample.github_login github).
  split; [reflexivity|].
  intros k' Hk'. destruct k'; first [reflexivity | exfalso; apply Hk'; reflexivity].
Defined.

(** C2 fails as stated: Google's attempt resolves its callback URL, then
    GitHub's attempt resolves its own; both calls return a URL, and the
    credentials then read for Google's exchange are GitHub's. *)
Lemma credentials_of_first_attempt_lost :
  let self1 := (MultiOAuthenticator.get_callback_url Sample.hub
                  (Some Sample.google_login)).1 in
  let self2 := (MultiOAuthenticator.get_callback_url self1
                  (Some Sample.github_login)).1 in
  (MultiOAuthenticator.get_callback_url Sample.hub (Some Sample.google_login)).2 =
    Return "https://hub.example.org/hub/google/callback" /\
  (MultiOAuthenticator.get_callback_url self1 (Some Sample.github_login)).2 =
    Return "https://hub.example.org/hub/github/callback" /\
  MultiOAuthenticator.client_id self2 = Some "github-client" /\
  MultiOAuthenticator.client_secret self2 = Some "github-secret" /\
  MultiOAuthenticator.scope self2 = Some [] /\
  credentials self2 <> credentials_of Sample.google_sub.
Proof. vm_compute. repeat split; done. Qed.

End CredentialClaims.

(** ** Claims about resolving the callback URL *)

Section CallbackUrlClaims.

Implicit Types (self : MultiOAuthenticator.t) (handler : RequestHandler).

(** C3 fails on the code for GitHub and GitLab.  With a callback URL
    configured on each adapter, the Google branch returns its adapter's
    URL after caching Google's credentials; the GitHub and GitLab
    branches cache the credentials and then read
    [self.config.<provider>_authenticator.oauth_callback_url] instead of
    the adapter: with nothing set there the call raises
    [AttributeError], and with another URL set there it returns that
    one, never the adapter's. *)
Theorem get_callback_url_reads_config_not_adapter :
  Authenticator.oauth_callback_url
    (MultiOAuthenticator.github_authenticator Sample.hub_configured) =
    Some "https://login.example.org/github/callback" /\
  Authenticator.oauth_callback_url
    (MultiOAuthenticator.gitlab_authenticator Sample.hub_configured) =
    Some "https://login.example.org/gitlab/callback" /\
  (MultiOAuthenticator.get_callback_url Sample.hub_configured
     (Some Sample.google_login)).2 =
    Return "https://login.example.org/google/callback" /\
  (MultiOAuthenticator.get_callback_url Sample.hub_configured
     (Some Sample.github_login)).2 =
    Raise (AttributeError "oauth_callback_url") /\
  (MultiOAuthenticator.get_callback_url Sample.hub_configured
     (Some Sample.gitlab_login)).2 =
    Raise (AttributeError "oauth_callback_url") /\
  credentials (MultiOAuthenticator.get_callback_url Sample.hub_configured
                 (Some Sample.github_login)).1 =
    credentials_of Sample.github_sub /\
  (MultiOAuthenticator.get_callback_url Sample.hub_configured_other
     (Some Sample.github_login)).2 =
    Return "https://other.example.org/github" /\
  (MultiOAuthenticator.get_callback_url Sample.hub_configured_other
     (Some Sample.gitlab_login)).2 =
    Return "https://other.example.org/gitlab".
Proof. vm_compute. repeat split. Qed.

(** The Google branch does what C3 says: for a Google login handler and
    a truthy callback URL on the Google adapter, the credentials cached
    are Google's and that URL is returned. *)
Lemma get_callback_url_google_configured self handler url :
  isinstance handler GoogleLoginHandler = true ->
  MultiOAuthenticator.if_truthy
    (Authenticator.oauth_callback_url
       (MultiOAuthenticator.google_authenticator self)) = Some url ->
  MultiOAuthenticator.get_callback_url self (Some handler) =
  (MultiOAuthenticator.set_oauth_tokens self
     (MultiOAuthenticator.google_authenticator self), Return url).
Proof.
  intros Hg Hurl. unfold MultiOAuthenticator.get_callback_url.
  rewrite Hg. simpl. by rewrite Hurl.
Qed.

(** What the request makes of an origin-form URI. *)
Lemma callback_url_from_request_origin handler p :
  origin_path p = true ->
  Tornado.uri (request handler) = p ->
  MultiOAuthenticator.callback_url_from_request handler =
  Return (Tornado.protocol (request handler) +:+ "://" +:+
          Tornado.host (request handler) +:+
          Str.replace "/login" "/callback" p).
Proof.
  intros Hp Huri. unfold MultiOAuthenticator.callback_url_from_request.
  by rewrite Huri, urlsplit_path_origin.
Qed.

(** C6, as the code has it: without a handler [get_callback_url] raises
    [ValueError]; a handler that is an instance of no provider's login
    handler class is not rejected: the dispatcher stays as it is and the
    call yields the URL made from the handler's own request, which for a
    request path in origin form is protocol, host and the path with
    [/login] replaced. *)
Theorem get_callback_url_without_owner self handler :
  no_login_class handler ->
  MultiOAuthenticator.get_callback_url self None =
    (self, Raise (ValueError "MultiAuthenticator only works with a handler")) /\
  MultiOAuthenticator.get_callback_url self (Some handler) =
    (self, MultiOAuthenticator.callback_url_from_request handler) /\
  (origin_path (Tornado.uri (request handler)) = true ->
   MultiOAuthenticator.get_callback_url self (Some handler) =
     (self, Return (Tornado.protocol (request handler) +:+ "://" +:+
                    Tornado.host (request handler) +:+
                    Str.replace "/login" "/callback"
                      (Tornado.uri (request handler))))).
Proof.
  intros Hno. split; [done|].
  rewrite get_callback_url_no_login_class by done. split; [done|].
  intros Hp. by rewrite (callback_url_from_request_origin handler _ Hp).
Qed.

Lemma get_callback_url_without_owner_witness :
  MultiOAuthenticator.get_callback_url Sample.hub None =
    (Sample.hub, Raise (ValueError "MultiAuthenticator only works with a handler")) /\
  MultiOAuthenticator.get_callback_url Sample.hub (Some Sample.logout) =
    (Sample.hub, Return "https://hub.example.org/hub/logout").
Proof.
  destruct (get_callback_url_without_owner Sample.hub Sample.logout)
    as (Hnone & _ & Hurl).
  - repeat split; reflexivity.
  - split; [exact Hnone|]. apply Hurl. reflexivity.
Defined.

(** C6 fails as stated: a logout handler matches no provider, and
    [get_callback_url] returns a URL for it. *)
Lemma get_callback_url_unrouted_handler_gets_url :
  matches Sample.hub Sample.app google Sample.logout = false /\
  matches Sample.hub Sample.app github Sample.logout = false /\
  matches Sample.hub Sample.app gitlab Sample.logout = false /\
  isinstance Sample.logout GoogleLoginHandler = false /\
  isinstance Sample.logout GitHubLoginHandler = false /\
  isinstance Sample.logout GitLabLoginHandler = false /\
  (MultiOAuthenticator.get_callback_url Sample.hub (Some Sample.logout)).2 =
    Return "https://hub.example.org/hub/logout".
Proof. vm_compute. repeat split. Qed.

(** The closing [/login] of a path that holds no other is replaced and
    what stands before it is kept. *)
Lemma replace_login_suffix prefix :
  Str.occurs "/login" prefix = false ->
  Str.replace "/login" "/callback" (prefix +:+ "/login") = prefix +:+ "/callback".
Proof.
  intros Hocc.
  rewrite <- (append_nil_r "/login"), replace_login_app by done.
  reflexivity.
Qed.

(** C5: when no [if] block returns a configured URL (for a handler Google
    owns: the Google adapter has no callback URL), a request for
    [scheme://host<prefix>/login] gets exactly
    [scheme://host<prefix>/callback]: the closing [/login] is replaced and
    scheme, host and the path before it are kept, whatever they are.  The
    path [<prefix>/login] is a rooted path with no [/login] inside
    [<prefix>]; the request target is given in origin form or, under a
    valid scheme and a plain host, in absolute form, with or without a
    query.  With [/hub/google] for [<prefix>] this is the round trip from
    [scheme://host/hub/google/login] to [scheme://host/hub/google/callback]. *)
Theorem callback_url_round_trip self handler scheme hst prefix :
  no_configured_url self handler ->
  Tornado.protocol (request handler) = scheme ->
  Tornado.host (request handler) = hst ->
  origin_path (prefix +:+ "/login") = true ->
  Str.occurs "/login" prefix = false ->
  (request_target (Tornado.uri (request handler)) (prefix +:+ "/login") \/
   (valid_scheme scheme = true /\ plain_host hst = true /\
    request_target (Tornado.uri (request handler))
      (scheme +:+ "://" +:+ hst +:+ prefix +:+ "/login"))) ->
  (MultiOAuthenticator.get_callback_url self (Some handler)).2 =
  Return (scheme +:+ "://" +:+ hst +:+ prefix +:+ "/callback").
Proof.
  intros Hno Hproto Hhost Hp Hocc Huri.
  rewrite get_callback_url_falls_through by done.
  unfold MultiOAuthenticator.callback_url_from_request.
  rewrite Hproto, Hhost.
  assert (Hpath : Urllib.urlsplit_path (Tornado.uri (request handler)) =
                  Return (prefix +:+ "/login")).
  { destruct Huri as [[->|[q ->]]|(Hs & Hh & [->|[q ->]])].
    - by apply urlsplit_path_origin.
    - by apply urlsplit_path_origin_query.
    - by apply urlsplit_path_absolute.
    - rewrite (append_assoc scheme), (append_assoc "://"), (append_assoc hst).
      by apply urlsplit_path_absolute_query. }
  rewrite Hpath. unfold rbind. by rewrite replace_login_suffix.
Qed.

Lemma callback_url_round_trip_witness :
  (MultiOAuthenticator.get_callback_url Sample.hub (Some Sample.google_login)).2 =
  Return "https://hub.example.org/hub/google/callback".
Proof.
  apply (callback_url_round_trip Sample.hub Sample.google_login
           "https" "hub.example.org" "/hub/google").
  - repeat split; intros E; vm_compute in E; try discriminate E;
      eexists; split; reflexivity.
  - reflexivity.
  - reflexivity.
  - reflexivity.
  - reflexivity.
  - left. left. reflexivity.
Defined.

(** C9: when no [if] block returns a configured URL, the result is
    protocol, [://], host and the path of the request URI with [/login]
    replaced by [/callback]; for a request path in origin form the query
    string is dropped, and however many times [/login] occurs in the path,
    and wherever, every occurrence is replaced: the pieces between the
    occurrences come back joined by [/callback]. *)
Theorem callback_url_synthesis self handler parts q :
  no_configured_url self handler ->
  origin_path (Str.join "/login" parts) = true ->
  Forall (fun s => Str.occurs "/login" s = false) parts ->
  Tornado.uri (request handler) = Str.join "/login" parts +:+ "?" +:+ q ->
  (MultiOAuthenticator.get_callback_url self (Some handler)).2 =
    (path <- Urllib.urlsplit_path (Tornado.uri (request handler)) ;;
     Return (Tornado.protocol (request handler) +:+ "://" +:+
             Tornado.host (request handler) +:+
             Str.replace "/login" "/callback" path)) /\
  (MultiOAuthenticator.get_callback_url self (Some handler)).2 =
    Return (Tornado.protocol (request handler) +:+ "://" +:+
            Tornado.host (request handler) +:+
            Str.join "/callback" parts).
Proof.
  intros Hno Hp Hparts Huri.
  rewrite get_callback_url_falls_through by done.
  split; [done|].
  unfold MultiOAuthenticator.callback_url_from_request.
  rewrite Huri, urlsplit_path_origin_query by done.
  unfold rbind. by rewrite replace_login_join.
Qed.

Lemma callback_url_synthesis_witness :
  (MultiOAuthenticator.get_callback_url Sample.hub
     (Some (Sample.handler_of [LoginHandler]
              "/login/hub/login/x?next=%2Fhub%2Flogin" ∅))).2 =
  Return "https://hub.example.org/callback/hub/callback/x".
Proof.
  refine (proj2 (callback_url_synthesis Sample.hub
                   (Sample.handler_of [LoginHandler]
                      "/login/hub/login/x?next=%2Fhub%2Flogin" ∅)
                   [""; "/hub"; "/x"] "next=%2Fhub%2Flogin" _ _ _ _)).
  - repeat split; intros E; vm_compute in E; discriminate E.
  - reflexivity.
  - repeat constructor.
  - reflexivity.
Defined.

End CallbackUrlClaims.

(** ** Claims about delegation and the route table *)

Section DispatchClaims.

Implicit Types (self : MultiOAuthenticator.t) (handler : RequestHandler).

(** The Google branch: a [GoogleOAuthHandler] is forwarded to the Google
    authenticator's [authenticate] with the same handler and data. *)
Lemma authenticate_google self handler data :
  isinstance handler GoogleOAuthHandler = true ->
  MultiOAuthenticator.authenticate self handler data =
  Authenticator.authenticate
    (MultiOAuthenticator.google_authenticator self) handler data.
Proof. unfold MultiOAuthenticator.authenticate. by intros ->. Qed.

(** The [else] branch: whatever is no [GoogleOAuthHandler] is forwarded to
    the GitHub authenticator's [authenticate]; no enable flag is read and
    nothing is raised by the dispatcher itself. *)
Lemma authenticate_not_google self handler data :
  isinstance handler GoogleOAuthHandler = false ->
  MultiOAuthenticator.authenticate self handler data =
  Authenticator.authenticate
    (MultiOAuthenticator.github_authenticator self) handler data.
Proof. unfold MultiOAuthenticator.authenticate. by intros ->. Qed.

(** C1 fails in the code: the callback handler GitLab registers is not
    delegated to the GitLab authenticator.  [authenticate] has the Google
    test and an [else] branch, the GitLab test between them was begun and
    left commented out; so the handler of [/hub/gitlab/callback] is handed
    to the GitHub authenticator's [authenticate], with all three providers
    enabled and also with GitLab the only provider enabled, GitHub being
    disabled.  What the GitLab authenticator would have answered for the
    same handler and data is not what comes back. *)
Theorem authenticate_gitlab_callback_reaches_github :
  dict (Authenticator.get_handlers Sample.gitlab_sub Sample.app) !! "/oauth_callback" =
    Some (OtherHandler "OAuthCallbackHandler") /\
  isinstance Sample.gitlab_callback (OtherHandler "OAuthCallbackHandler") = true /\
  matches Sample.hub Sample.app gitlab Sample.gitlab_callback = true /\
  MultiOAuthenticator.authenticate Sample.hub Sample.gitlab_callback ∅ =
    Authenticator.authenticate Sample.github_sub Sample.gitlab_callback ∅ /\
  MultiOAuthenticator.authenticate Sample.hub Sample.gitlab_callback ∅ =
    Return (Some "github-user") /\
  Authenticator.authenticate
    (MultiOAuthenticator.gitlab_authenticator Sample.hub)
    Sample.gitlab_callback ∅ = Return (Some "gitlab-user") /\
  enabled Sample.hub_gitlab_only google = false /\
  enabled Sample.hub_gitlab_only github = false /\
  enabled Sample.hub_gitlab_only gitlab = true /\
  MultiOAuthenticator.authenticate Sample.hub_gitlab_only Sample.gitlab_callback ∅ =
    Authenticator.authenticate
      (MultiOAuthenticator.github_authenticator Sample.hub_gitlab_only)
      Sample.gitlab_callback ∅ /\
  MultiOAuthenticator.authenticate Sample.hub_gitlab_only Sample.gitlab_callback ∅ =
    Return (Some "github-user").
Proof. vm_compute. repeat split. Qed.

(** The same branch takes a handler that matches no provider: a logout
    handler is handed to the GitHub authenticator and nothing is raised. *)
Lemma authenticate_unknown_handler_delegated :
  matches Sample.hub Sample.app google Sample.logout = false /\
  matches Sample.hub Sample.app github Sample.logout = false /\
  matches Sample.hub Sample.app gitlab Sample.logout = false /\
  MultiOAuthenticator.authenticate Sample.hub Sample.logout ∅ =
    Authenticator.authenticate Sample.github_sub Sample.logout ∅ /\
  MultiOAuthenticator.authenticate Sample.hub Sample.logout ∅ =
    Return (Some "github-user") /\
  is_raise (MultiOAuthenticator.authenticate Sample.hub Sample.logout ∅) = false.
Proof. vm_compute. repeat split. Qed.

(** C4: when every enabled provider's own handler map has a login and a
    callback handler, [get_handlers] returns [2|P| + 1] routes for the
    set [P] of enabled providers: the chooser route [/login] first, then
    for every enabled key [/<key>/login] and [/<key>/callback] with that
    provider's own two handlers; no path of a disabled provider is in the
    table. *)
Theorem get_handlers_route_table self app :
  (forall k, enabled self k = true ->
             has_oauth_handlers (authenticator_of self k) app) ->
  exists routes,
    MultiOAuthenticator.get_handlers self app = Return routes /\
    length routes = 2 * length (enabled_keys self) + 1 /\
    head routes = Some ("/login", MultiOAuthLoginHandler) /\
    (forall k, enabled self k = true ->
       exists login callback,
         dict (Authenticator.get_handlers (authenticator_of self k) app)
           !! "/oauth_login" = Some login /\
         dict (Authenticator.get_handlers (authenticator_of self k) app)
           !! "/oauth_callback" = Some callback /\
         ("/" +:+ key_name k +:+ "/login", login) ∈ routes /\
         ("/" +:+ key_name k +:+ "/callback", callback) ∈ routes) /\
    (forall k, enabled self k = false ->
       (("/" +:+ key_name k +:+ "/login") ∉ (routes.*1)) /\
       (("/" +:+ key_name k +:+ "/callback") ∉ (routes.*1))).
Proof.
  intros Hhas.
  pose proof (Hhas google) as Hg.
  pose proof (Hhas github) as Hh.
  pose proof (Hhas gitlab) as Hl.
  unfold MultiOAuthenticator.get_handlers, enabled_keys, has_oauth_handlers in *.
  simpl in Hg, Hh, Hl. simpl.
  destruct (MultiOAuthenticator.enable_google self) eqn:Eg;
    [destruct Hg as [[lg Hlg] [cg Hcg]]; [done|]|];
    (destruct (MultiOAuthenticator.enable_github self) eqn:Eh;
     [destruct Hh as [[lh Hlh] [ch Hch]]; [done|]|]);
    (destruct (MultiOAuthenticator.enable_gitlab self) eqn:El;
     [destruct Hl as [[ll Hll] [cl Hcl]]; [done|]|]);
    unfold subscript; rewrite ?Hlg, ?Hcg, ?Hlh, ?Hch, ?Hll, ?Hcl; simpl;
    (eexists; split; [reflexivity|]);
    (split; [reflexivity|]); (split; [reflexivity|]);
    (split; intros [] Hk; simpl in Hk; rewrite ?Eg, ?Eh, ?El in Hk;
     try discriminate Hk; simpl);
    try (do 2 eexists; split; [eassumption|]; split; [eassumption|];
         split; apply list_elem_of_In; simpl;
         repeat first [left; reflexivity | right]);
    (split; intros Hin; apply list_elem_of_In in Hin; simpl in Hin;
     repeat (destruct Hin as [Hin|Hin]; [discriminate Hin|]); exact Hin).
Qed.

Lemma get_handlers_route_table_witness :
  exists routes,
    MultiOAuthenticator.get_handlers Sample.hub_github_only Sample.app =
      Return routes /\
    length routes = 3 /\
    head routes = Some ("/login", MultiOAuthLoginHandler).
Proof.
  destruct (get_handlers_route_table Sample.hub_github_only Sample.app)
    as (routes & Hroutes & Hlen & Hhead & _).
  - intros k Hk. destruct k; try discriminate Hk.
    split; eexists; vm_compute; reflexivity.
  - exists routes. split; [exact Hroutes|]. split; [exact Hlen|exact Hhead].
Defined.

(** The route table of the sample deployment with all three providers. *)
Example get_handlers_all_enabled :
  MultiOAuthenticator.get_handlers Sample.hub Sample.app =
  Return [("/login", MultiOAuthLoginHandler);
          ("/google/login", GoogleLoginHandler);
          ("/google/callback", GoogleOAuthHandler);
          ("/github/login", GitHubLoginHandler);
          ("/github/callback", OtherHandler "OAuthCallbackHandler");
          ("/gitlab/login", GitLabLoginHandler);
          ("/gitlab/callback", OtherHandler "OAuthCallbackHandler")].
Proof. vm_compute. reflexivity. Qed.

End DispatchClaims.

(** ** Reading a submitted argument *)

Section ArgumentFacts.

Implicit Types (authenticator : MultiOAuthenticator.t) (self : RequestHandler).

Lemma get_arguments_decodable values :
  forallb (fun v => bool_decide (is_Some (Unicode.decode v))) values = true ->
  exists args, Tornado._get_arguments values = Return args.
Proof.
  induction values as [|v values IH]; simpl; [by eexists|].
  intros [Hv Hrest]%andb_prop. apply bool_decide_eq_true in Hv as [chars Hv].
  destruct (IH Hrest) as [args Hargs].
  unfold Tornado.decode_argument. rewrite Hv. simpl. rewrite Hargs. simpl.
  by eexists.
Qed.

Lemma get_arguments_undecodable values :
  forallb (fun v => bool_decide (is_Some (Unicode.decode v))) values = false ->
  Tornado._get_arguments values = Raise (HTTPError 400).
Proof.
  induction values as [|v values IH]; simpl; [done|].
  unfold Tornado.decode_argument.
  destruct (Unicode.decode v) as [chars|] eqn:Hv; simpl; [|done].
  intros Hrest. by rewrite IH.
Qed.

(** Every value under the name decodes: the read returns. *)
Lemma get_argument_decodable self name d :
  decodable self name = true ->
  exists v, get_argument self name d = Return v.
Proof.
  intros [args Hargs]%get_arguments_decodable.
  unfold get_argument. rewrite Hargs. simpl. by eexists.
Qed.

(** Some value under the name is no UTF-8: the read is refused. *)
Lemma get_argument_undecodable self name d :
  decodable self name = false ->
  get_argument self name d = Raise (HTTPError 400).
Proof.
  intros Hargs%get_arguments_undecodable.
  unfold get_argument. by rewrite Hargs.
Qed.


(** Nothing was submitted under the name: the read returns the default. *)
Lemma get_argument_absent self name d :
  submitted self name = false ->
  get_argument self name d = Return d.
Proof.
  unfold submitted, get_argument.
  by destruct (arguments self !! name) as [[|v values]|].
Qed.



(** [post] reads [next], makes the tests of [first_selected] over the
    registry and answers for what they give. *)
Lemma post_first_selected authenticator self :
  MultiOAuthLoginHandler.post authenticator self =
  (nextval <- get_argument self "next" (Some "") ;;
   chosen <- first_selected authenticator self registry ;;
   match chosen with
   | Some k =>
       Return (MultiOAuthLoginHandler.Redirect 302
                 (Tornado.url_concat
                    (Tornado.protocol (request self) +:+ "://" +:+
                     Tornado.host (request self) +:+ hub_base_url self +:+
                     key_name k +:+ "/login")
                    [("next", default "" nextval)]))
   | None =>
       html <- MultiOAuthLoginHandler._render authenticator self
                 (Some "Unknown or missing authenticator") ;;
       Return (MultiOAuthLoginHandler.Finish 200 html)
   end).
Proof.
  unfold MultiOAuthLoginHandler.post, first_selected, selected.
  destruct (get_argument self "next" (Some "")) as [e|nextval]; [done|].
  simpl.
  change (flag_name google) with "login_google".
  change (flag_name github) with "login_github".
  change (flag_name gitlab) with "login_gitlab".
  destruct (MultiOAuthLoginHandler.and_argument
              (MultiOAuthenticator.enable_google authenticator) self "login_google")
    as [e|[]]; [done|done|]. simpl.
  destruct (MultiOAuthLoginHandler.and_argument
              (MultiOAuthenticator.enable_github authenticator) self "login_github")
    as [e|[]]; [done|done|]. simpl.
  destruct (MultiOAuthLoginHandler.and_argument
              (MultiOAuthenticator.enable_gitlab authenticator) self "login_gitlab")
    as [e|[]]; done.
Qed.

(** What [_render] returns when [next] was read. *)
Lemma render_page authenticator self login_error nextval :
  get_argument self "next" (Some "") = Return nextval ->
  exists page,
    MultiOAuthLoginHandler._render authenticator self login_error = Return page /\
    MultiOAuthLoginHandler.template page = "nlm/login.html" /\
    MultiOAuthLoginHandler.login_error page = login_error /\
    MultiOAuthLoginHandler.next page = Tornado.url_escape (default "" nextval).
Proof.
  intros Hnext. unfold MultiOAuthLoginHandler._render. rewrite Hnext. simpl.
  by eexists.
Qed.

End ArgumentFacts.

(** ** Claims about the chooser form *)

Section ChooserClaims.

Implicit Types (authenticator : MultiOAuthenticator.t) (self : RequestHandler).

Lemma url_concat_next url c nextval :
  Str.last url = Some c ->
  Ascii.eqb c "?" || Ascii.eqb c "&" = false ->
  Str.contains "?" url = false ->
  Tornado.url_concat url [("next", nextval)] =
  url +:+ "?next=" +:+ Urllib.quote_plus nextval.
Proof.
  intros Hlast Hc Hq. unfold Tornado.url_concat.
  rewrite Hlast, Hc, Hq. by rewrite append_assoc.
Qed.

(** The redirect target [post] builds for a provider segment. *)
Lemma login_redirect_target proto hst prefix seg nextval :
  Str.contains "?" (proto +:+ hst +:+ prefix) = false ->
  Str.contains "?" seg = false ->
  Str.last seg = Some "n"%char ->
  Tornado.url_concat
    (proto +:+ "://" +:+ hst +:+ (prefix +:+ "/") +:+ seg) [("next", nextval)] =
  proto +:+ "://" +:+ hst +:+ prefix +:+ "/" +:+ seg +:+ "?next=" +:+
  Urllib.quote_plus nextval.
Proof.
  intros Hq Hseg Hlast.
  rewrite !contains_app in Hq.
  apply orb_false_elim in Hq as [Hp [Hh Hx]%orb_false_elim].
  destruct seg as [|s0 seg]; [done|].
  rewrite (url_concat_next _ "n").
  - by rewrite !append_assoc.
  - by rewrite <- !append_assoc, last_app.
  - done.
  - rewrite !contains_app. by rewrite Hp, Hh, Hx, Hseg.
Qed.

(** C7, as the code has it: [post] reads [next] and then tests the
    providers in the order google, github, gitlab.  A provider passes the
    test when it is enabled and [get_argument] returns a non-empty string
    for its flag: the last value submitted, decoded as UTF-8, its control
    characters replaced by blanks, stripped of surrounding whitespace; a
    flag that is present but blank does not pass.  When [next] and the
    flags tested decode, [post] answers for the first provider that passes
    with a 302 redirect to
    [<scheme>://<host><hubPrefix>/<key>/login?next=<next>], [<next>] being
    what [get_argument] returns for [next], percent-encoded.  Here
    [hub.base_url] is the hub prefix with its closing slash, and the
    request is one on whose URLs [url_concat] only appends: an http or
    https request with a plain host that is not empty, the prefix empty or
    a rooted path without [?] or [#]. *)
Theorem post_redirects_to_first_selected authenticator self k prefix nextval :
  get_argument self "next" (Some "") = Return (Some nextval) ->
  first_selected authenticator self registry = Return (Some k) ->
  hub_base_url self = prefix +:+ "/" ->
  Tornado.protocol (request self) = "http" \/
    Tornado.protocol (request self) = "https" ->
  plain_host (Tornado.host (request self)) = true ->
  Tornado.host (request self) <> "" ->
  plain_prefix prefix = true ->
  MultiOAuthLoginHandler.post authenticator self =
  Return (MultiOAuthLoginHandler.Redirect 302
    (Tornado.protocol (request self) +:+ "://" +:+ Tornado.host (request self) +:+
     prefix +:+ "/" +:+ key_name k +:+ "/login?next=" +:+
     Urllib.quote_plus nextval)).
Proof.
  intros Hnext Hfirst Hbase Hproto Hhost _ [_ Hprefix]%andb_prop.
  assert (Hq : Str.contains "?"
                 (Tornado.protocol (request self) +:+
                  Tornado.host (request self) +:+ prefix) = false).
  { rewrite !contains_app.
    rewrite (forallb_contains _ "?" _ Hhost), (forallb_contains _ "?" _ Hprefix)
      by done.
    by destruct Hproto as [->| ->]. }
  rewrite post_first_selected, Hnext, Hfirst, Hbase. unfold rbind.
  change (default "" (Some nextval)) with nextval.
  do 2 f_equal.
  rewrite (login_redirect_target _ _ _ (key_name k +:+ "/login"))
    by (done || by destruct k).
  by destruct k.
Qed.

Lemma post_redirects_to_first_selected_witness :
  MultiOAuthLoginHandler.post Sample.hub
    (Sample.chooser Sample.blank_google_github_form) =
  Return (MultiOAuthLoginHandler.Redirect 302
            "https://hub.example.org/hub/github/login?next=%2Ffoo").
Proof.
  apply (post_redirects_to_first_selected Sample.hub
           (Sample.chooser Sample.blank_google_github_form) github "/hub" "/foo").
  - vm_compute. reflexivity.
  - vm_compute. reflexivity.
  - reflexivity.
  - right. reflexivity.
  - reflexivity.
  - discriminate.
  - reflexivity.
Defined.

(** C7 fails as stated, twice.  With Google enabled and [login_google]
    present in the form but blank ([login_google=%20]), [post] does not
    redirect to Google: it renders the chooser page again.  With GitHub
    enabled and [login_github=1] in the form, a [next] that is no UTF-8
    ([next=%FF]) is answered with status 400, not with a redirect. *)
Lemma post_blank_flag_is_not_followed :
  enabled Sample.hub google = true /\
  arguments (Sample.chooser Sample.blank_google_form) !! "login_google" =
    Some [" "] /\
  (exists page,
     MultiOAuthLoginHandler.post Sample.hub
       (Sample.chooser Sample.blank_google_form) =
       Return (MultiOAuthLoginHandler.Finish 200 page) /\
     MultiOAuthLoginHandler.login_error page =
       Some "Unknown or missing authenticator") /\
  enabled Sample.hub github = true /\
  arguments (Sample.chooser Sample.bad_next_github_form) !! "login_github" =
    Some ["1"] /\
  MultiOAuthLoginHandler.post Sample.hub
    (Sample.chooser Sample.bad_next_github_form) = Raise (HTTPError 400).
Proof.
  split; [reflexivity|]. split; [by vm_compute|]. split.
  { eexists. split; [vm_compute; reflexivity|reflexivity]. }
  split; [reflexivity|]. split; by vm_compute.
Qed.

(** C8, as the code has it: when no provider is both enabled and present
    in the form, [post] sends no redirect.  If every [next] value
    submitted is valid UTF-8, it finishes the response, status 200, with
    the chooser page rendered with [login_error] set to
    "Unknown or missing authenticator"; if one is not, reading [next]
    fails and the request is answered with status 400, no page being
    rendered. *)
Theorem post_without_provider_renders_error authenticator self :
  (forall k, ~ (enabled authenticator k = true /\
                submitted self (flag_name k) = true)) ->
  (decodable self "next" = true ->
   exists page,
     MultiOAuthLoginHandler.post authenticator self =
       Return (MultiOAuthLoginHandler.Finish 200 page) /\
     MultiOAuthLoginHandler._render authenticator self
       (Some "Unknown or missing authenticator") = Return page /\
     MultiOAuthLoginHandler.login_error page =
       Some "Unknown or missing authenticator" /\
     MultiOAuthLoginHandler.template page = "nlm/login.html") /\
  (decodable self "next" = false ->
   MultiOAuthLoginHandler.post authenticator self = Raise (HTTPError 400)).
Proof.
  intros Hnone.
  assert (Hsel : forall k, selected authenticator self k = Return false).
  { intros k. unfold selected, MultiOAuthLoginHandler.and_argument.
    destruct (enabled authenticator k) eqn:Ek; [|done].
    rewrite get_argument_absent; [done|].
    destruct (submitted self (flag_name k)) eqn:Es; [|done].
    exfalso. apply (Hnone k). by split. }
  assert (Hfirst : first_selected authenticator self registry = Return None).
  { simpl. by rewrite !Hsel. }
  rewrite post_first_selected, Hfirst. split; intros Hdec.
  - destruct (get_argument_decodable self "next" (Some "") Hdec) as [v Hv].
    destruct (render_page authenticator self
                (Some "Unknown or missing authenticator") v Hv)
      as (page & Hpage & Htemplate & Herror & _).
    exists page. rewrite Hv. simpl. by rewrite Hpage.
  - by rewrite get_argument_undecodable.
Qed.

Lemma post_without_provider_renders_error_witness :
  (exists page,
     MultiOAuthLoginHandler.post Sample.hub_github_only
       (Sample.chooser Sample.gitlab_form) =
       Return (MultiOAuthLoginHandler.Finish 200 page) /\
     MultiOAuthLoginHandler._render Sample.hub_github_only
       (Sample.chooser Sample.gitlab_form)
       (Some "Unknown or missing authenticator") = Return page /\
     MultiOAuthLoginHandler.login_error page =
       Some "Unknown or missing authenticator" /\
     MultiOAuthLoginHandler.template page = "nlm/login.html") /\
  MultiOAuthLoginHandler.post Sample.hub_github_only
    (Sample.chooser Sample.bad_next_form) = Raise (HTTPError 400).
Proof.
  split.
  - apply (post_without_provider_renders_error Sample.hub_github_only
             (Sample.chooser Sample.gitlab_form)); [|reflexivity].
    intros k [Hk Hs]. destruct k.
    + discriminate Hk.
    + vm_compute in Hs. discriminate Hs.
    + discriminate Hk.
  - apply (post_without_provider_renders_error Sample.hub_github_only
             (Sample.chooser Sample.bad_next_form)); [|reflexivity].
    intros k [Hk Hs]. destruct k.
    + discriminate Hk.
    + vm_compute in Hs. discriminate Hs.
    + discriminate Hk.
Defined.

(** C8 fails as stated: a form with no provider flag at all and a [next]
    that is no UTF-8 ([next=%FF]) gets no chooser page and no status 200;
    reading [next] raises [HTTPError(400)]. *)
Lemma post_undecodable_next_is_refused :
  submitted (Sample.chooser Sample.bad_next_form) (flag_name google) = false /\
  submitted (Sample.chooser Sample.bad_next_form) (flag_name github) = false /\
  submitted (Sample.chooser Sample.bad_next_form) (flag_name gitlab) = false /\
  MultiOAuthLoginHandler.post Sample.hub (Sample.chooser Sample.bad_next_form) =
    Raise (HTTPError 400) /\
  MultiOAuthLoginHandler._render Sample.hub (Sample.chooser Sample.bad_next_form)
    (Some "Unknown or missing authenticator") = Raise (HTTPError 400).
Proof. vm_compute. repeat split. Qed.

End ChooserClaims.

(** * Further properties *)

(** ** What the replacement leaves behind *)

Section ReplaceFacts.

Local Arguments Ascii.eqb : simpl never.

Local Ltac step a :=
  destruct a as [|? a];
  [ rewrite ?append_cons, ?append_nil_l; simpl;
    rewrite ?andb_false_r; reflexivity
  | rewrite ?append_cons; simpl in *;
    match goal with
    | |- context [Ascii.eqb ?x ?y && _] =>
        destruct (Ascii.eqb x y); simpl in *; [|reflexivity]
    end ].

Lemma startswith_login_app_slash a Y :
  a <> "" ->
  Str.startswith "/login" a = false ->
  Str.startswith "/login" (a +:+ String "/" Y) = false.
Proof.
  intros Hne H.
  destruct a as [|c1 a]; [done|]. clear Hne.
  rewrite append_cons. simpl in *.
  destruct (Ascii.eqb "/" c1); simpl in *; [|reflexivity].
  step a. step a. step a. step a. step a.
  exact H.
Qed.

Lemma occurs_login_app_callback a :
  Str.occurs "/login" a = false ->
  Str.occurs "/login" (a +:+ "/callback") = false.
Proof.
  induction a as [|c a IH]; intros Hocc; [done|].
  apply orb_false_elim in Hocc as [Hhere Hlater].
  rewrite append_cons.
  change (Str.occurs "/login" (String c (a +:+ "/callback")))
    with (Str.startswith "/login" (String c (a +:+ "/callback")) ||
          Str.occurs "/login" (a +:+ "/callback")).
  rewrite IH by done. rewrite <- (append_cons c a).
  by rewrite (startswith_login_app_slash (String c a) "callback").
Qed.

Lemma replace_from_cons_hit c s :
  Str.startswith "/login" (String c s) = true ->
  Str.replace_from 0 "/login" "/callback" (String c s) =
  "/callback" +:+ Str.replace_from 5 "/login" "/callback" s.
Proof.
  intros H.
  change (Str.replace_from 0 "/login" "/callback" (String c s))
    with (if Str.startswith "/login" (String c s)
          then "/callback" +:+ Str.replace_from 5 "/login" "/callback" s
          else String c (Str.replace_from 0 "/login" "/callback" s)).
  by rewrite H.
Qed.

(** A word without a slash starts the replaced string exactly when it
    starts the original. *)
Lemma startswith_replace w s :
  Str.contains "/" w = false ->
  Str.startswith w (Str.replace_from 0 "/login" "/callback" s) =
  Str.startswith w s.
Proof.
  revert s. induction w as [|a w IH]; intros s Hw; [done|].
  simpl in Hw. apply orb_false_elim in Hw as [Ha Hw].
  destruct s as [|d s]; [done|].
  destruct (Str.startswith "/login" (String d s)) eqn:Hhit.
  - rewrite replace_from_cons_hit by done.
    assert (Hd : Ascii.eqb "/" d = true).
    { simpl in Hhit. by apply andb_prop in Hhit as [? _]. }
    apply Ascii.eqb_eq in Hd as <-.
    change (Str.startswith (String a w) ("/callback" +:+ ?x))
      with (Ascii.eqb a "/" && Str.startswith w ("callback" +:+ x)).
    simpl. rewrite (Ascii.eqb_sym a "/"), Ha. done.
  - rewrite replace_from_cons_miss by done. simpl. by rewrite IH.
Qed.

Lemma occurs_callback x :
  Str.occurs "/login" ("/callback" +:+ x) = Str.occurs "/login" x.
Proof. reflexivity. Qed.

Lemma occurs_replace_from k s :
  Str.occurs "/login" (Str.replace_from k "/login" "/callback" s) = false.
Proof.
  revert k. induction s as [|c s IH]; intros k; [by destruct k|].
  destruct k as [|k]; [|apply IH].
  destruct (Str.startswith "/login" (String c s)) eqn:Hhit.
  - rewrite replace_from_cons_hit by done. rewrite occurs_callback. apply IH.
  - rewrite replace_from_cons_miss by done.
    change (Str.occurs "/login" (String c ?x))
      with (Str.startswith "/login" (String c x) || Str.occurs "/login" x).
    rewrite IH, orb_false_r.
    change (Str.startswith "/login" (String c ?x))
      with (Ascii.eqb "/" c && Str.startswith "login" x) in Hhit |- *.
    by rewrite (startswith_replace "login").
Qed.

(** No [/login] is left after the replacement. *)
Lemma occurs_replace_login s :
  Str.occurs "/login" (Str.replace "/login" "/callback" s) = false.
Proof. apply occurs_replace_from. Qed.

Lemma origin_path_login_callback a :
  origin_path (a +:+ "/login") = true ->
  origin_path (a +:+ "/callback") = true.
Proof.
  unfold origin_path. rewrite !forallb_app.
  intros [[H1 H2]%andb_prop [H3 _]%andb_prop]%andb_prop.
  rewrite H3. simpl "&&".
  destruct a as [|c [|d a]]; [done| |].
  - rewrite !append_cons, !append_nil_l in *. simpl in *.
    by destruct (Ascii.eqb "/" c).
  - rewrite !append_cons in *. simpl in H1, H2. by rewrite H1, H2.
Qed.

End ReplaceFacts.

(** ** Resolving the callback URL: further properties *)

Section CallbackUrlFacts.

Implicit Types (self : MultiOAuthenticator.t) (handler : RequestHandler).

Local Ltac cases_get_callback_url :=
  repeat (match goal with
          | |- context [match MultiOAuthenticator.if_truthy ?v with _ => _ end] =>
              destruct (MultiOAuthenticator.if_truthy v) eqn:?
          | |- context [match config_getattr ?c ?s ?a with _ => _ end] =>
              destruct (config_getattr c s a) eqn:?
          | |- context [if isinstance ?h ?c then _ else _] =>
              destruct (isinstance h c) eqn:?
          end; simpl; try congruence).

Lemma urlsplit_path_target uri p :
  origin_path p = true -> request_target uri p ->
  Urllib.urlsplit_path uri = Return p.
Proof.
  intros Hp [->|[q ->]].
  - by apply urlsplit_path_origin.
  - by apply urlsplit_path_origin_query.
Qed.

(** X1: resolving the callback URL a second time for the same handler
    returns what the first call returned and leaves the dispatcher as the
    first call left it. *)
Theorem get_callback_url_idempotent self (arg : option RequestHandler) :
  MultiOAuthenticator.get_callback_url
    (MultiOAuthenticator.get_callback_url self arg).1 arg =
  MultiOAuthenticator.get_callback_url self arg.
Proof.
  destruct arg as [handler|]; [|done].
  destruct self as [eg eh el ga gh gl cfg lu ci cs sc].
  destruct (isinstance handler GoogleLoginHandler) eqn:Eg;
    destruct (isinstance handler GitHubLoginHandler) eqn:Eh;
    destruct (isinstance handler GitLabLoginHandler) eqn:El;
    destruct (MultiOAuthenticator.if_truthy (Authenticator.oauth_callback_url ga))
      eqn:Tg;
    destruct (config_getattr cfg "github_authenticator" "oauth_callback_url")
      as [e1|v1] eqn:Ch;
    destruct (config_getattr cfg "gitlab_authenticator" "oauth_callback_url")
      as [e2|v2] eqn:Cl;
    try destruct (MultiOAuthenticator.if_truthy v1) eqn:Th;
    try destruct (MultiOAuthenticator.if_truthy v2) eqn:Tl;
    unfold MultiOAuthenticator.get_callback_url;
    repeat (cbn; rewrite ?Eg, ?Eh, ?El, ?Tg, ?Ch, ?Cl, ?Th, ?Tl);
    reflexivity.
Qed.

Local Ltac split_get_callback_url handler ga cfg :=
  destruct (isinstance handler GoogleLoginHandler) eqn:?;
  destruct (isinstance handler GitHubLoginHandler) eqn:?;
  destruct (isinstance handler GitLabLoginHandler) eqn:?;
  destruct (MultiOAuthenticator.if_truthy (Authenticator.oauth_callback_url ga))
    eqn:?;
  destruct (config_getattr cfg "github_authenticator" "oauth_callback_url")
    as [?|v1] eqn:?;
  destruct (config_getattr cfg "gitlab_authenticator" "oauth_callback_url")
    as [?|v2] eqn:?;
  try destruct (MultiOAuthenticator.if_truthy v1) eqn:?;
  try destruct (MultiOAuthenticator.if_truthy v2) eqn:?;
  unfold MultiOAuthenticator.get_callback_url;
  repeat (cbn;
          repeat match goal with
                 | H : ?l = _ |- context [?l] => rewrite H
                 end).

(** X2: [get_callback_url] looks at neither the enable flags nor the
    credentials cached so far.  Two dispatchers with the same
    sub-authenticators and the same [self.config] return the same for a
    handler, and when the handler has a provider's login handler class
    they end with the same cached credentials; so the login handler of a
    disabled provider is resolved like that of an enabled one. *)
Theorem get_callback_url_ignores_flags self self' handler :
  same_providers self self' ->
  (MultiOAuthenticator.get_callback_url self (Some handler)).2 =
  (MultiOAuthenticator.get_callback_url self' (Some handler)).2 /\
  ((exists k, isinstance handler (login_class k) = true) ->
   credentials (MultiOAuthenticator.get_callback_url self (Some handler)).1 =
   credentials (MultiOAuthenticator.get_callback_url self' (Some handler)).1).
Proof.
  intros [Hauth Hcfg].
  pose proof (Hauth google) as Hg.
  pose proof (Hauth github) as Hh.
  pose proof (Hauth gitlab) as Hl.
  destruct self as [eg eh el ga gh gl cfg lu ci cs sc].
  destruct self' as [eg' eh' el' ga' gh' gl' cfg' lu' ci' cs' sc'].
  simpl in Hg, Hh, Hl, Hcfg. subst ga' gh' gl' cfg'.
  split.
  - split_get_callback_url handler ga cfg; reflexivity.
  - intros [k Hk].
    split_get_callback_url handler ga cfg; try reflexivity;
      destruct k; simpl in Hk; congruence.
Qed.

Lemma get_callback_url_ignores_flags_witness :
  (MultiOAuthenticator.get_callback_url Sample.hub_google_disabled
     (Some Sample.google_login)).2 =
  Return "https://login.example.org/google/callback".
Proof.
  rewrite (proj1 (get_callback_url_ignores_flags Sample.hub_google_disabled
                    Sample.hub_google_enabled Sample.google_login
                    ltac:(split; [intros []; reflexivity | reflexivity]))).
  reflexivity.
Defined.

(** X3: when the read of [self.config] in the GitHub or GitLab branch
    raises, [get_callback_url] raises the same error, yet the provider's
    credentials are cached already: the dispatcher is not left as it was. *)
Theorem get_callback_url_raise_after_caching self handler k e :
  owns k handler ->
  k <> google ->
  config_getattr (MultiOAuthenticator.config self)
    (key_name k +:+ "_authenticator") "oauth_callback_url" = Raise e ->
  MultiOAuthenticator.get_callback_url self (Some handler) =
  (MultiOAuthenticator.set_oauth_tokens self (authenticator_of self k), Raise e).
Proof.
  intros (Hg & Hh & Hl)%owns_inv Hk Hcfg.
  unfold MultiOAuthenticator.get_callback_url. rewrite Hg, Hh, Hl.
  destruct k; [done| |]; simpl;
    change (key_name github +:+ "_authenticator") with "github_authenticator" in Hcfg;
    change (key_name gitlab +:+ "_authenticator") with "gitlab_authenticator" in Hcfg;
    by rewrite Hcfg.
Qed.

Lemma get_callback_url_raise_after_caching_witness :
  MultiOAuthenticator.get_callback_url Sample.hub_configured
    (Some Sample.github_login) =
  (MultiOAuthenticator.set_oauth_tokens Sample.hub_configured
     (MultiOAuthenticator.github_authenticator Sample.hub_configured),
   Raise (AttributeError "oauth_callback_url")).
Proof.
  apply (get_callback_url_raise_after_caching Sample.hub_configured
           Sample.github_login github).
  - split; [reflexivity|].
    intros k' Hk'. destruct k'; first [reflexivity | exfalso; apply Hk'; reflexivity].
  - discriminate.
  - reflexivity.
Defined.

(** X4: for a Google login handler and a non-empty callback URL on the
    Google adapter, [get_callback_url] returns that URL whatever the
    request is, with Google's credentials cached and nothing else
    changed; the later branches are not run. *)
Theorem get_callback_url_google_url self handler url :
  isinstance handler GoogleLoginHandler = true ->
  Authenticator.oauth_callback_url
    (MultiOAuthenticator.google_authenticator self) = Some url ->
  url <> "" ->
  MultiOAuthenticator.get_callback_url self (Some handler) =
  (MultiOAuthenticator.set_oauth_tokens self
     (MultiOAuthenticator.google_authenticator self), Return url).
Proof.
  intros Hg Hurl Hne. apply get_callback_url_google_configured; [done|].
  rewrite Hurl. simpl. destruct (String.eqb_spec url ""); done.
Qed.

Lemma get_callback_url_google_url_witness :
  (MultiOAuthenticator.get_callback_url Sample.hub_configured
     (Some Sample.google_login)).2 =
  Return "https://login.example.org/google/callback".
Proof.
  rewrite (get_callback_url_google_url Sample.hub_configured Sample.google_login
             "https://login.example.org/google/callback").
  - reflexivity.
  - reflexivity.
  - reflexivity.
  - discriminate.
Defined.

(** X5: a callback URL that is [None] or the empty string counts as not
    configured.  For a handler Google owns, Google's credentials are
    cached and the URL is made from the request. *)
Theorem get_callback_url_blank_url self handler :
  owns google handler ->
  Authenticator.oauth_callback_url
    (MultiOAuthenticator.google_authenticator self) = None \/
  Authenticator.oauth_callback_url
    (MultiOAuthenticator.google_authenticator self) = Some "" ->
  MultiOAuthenticator.get_callback_url self (Some handler) =
  (MultiOAuthenticator.set_oauth_tokens self
     (MultiOAuthenticator.google_authenticator self),
   MultiOAuthenticator.callback_url_from_request handler).
Proof.
  intros (Hg & Hh & Hl)%owns_inv Hurl.
  unfold MultiOAuthenticator.get_callback_url. rewrite Hg, Hh, Hl. simpl.
  by destruct Hurl as [-> | ->].
Qed.

Lemma get_callback_url_blank_url_witness :
  (MultiOAuthenticator.get_callback_url Sample.hub_blank_url
     (Some Sample.google_login)).2 =
  Return "https://hub.example.org/hub/google/callback".
Proof.
  rewrite (get_callback_url_blank_url Sample.hub_blank_url Sample.google_login).
  - reflexivity.
  - split; [reflexivity|].
    intros k' Hk'. destruct k'; first [reflexivity | exfalso; apply Hk'; reflexivity].
  - right. reflexivity.
Defined.

(** X6: the callback URL computed at login time and the one computed at
    callback time agree.  With no configured URL in play, a login request
    for [<prefix>/login] and a callback request for [<prefix>/callback],
    on the same protocol and host and whatever their queries, both yield
    [protocol://host<prefix>/callback] ([<prefix>] holding no [/login]). *)
Theorem callback_url_same_at_login_and_callback self login callback prefix :
  no_configured_url self login ->
  no_configured_url self callback ->
  origin_path (prefix +:+ "/login") = true ->
  Str.occurs "/login" prefix = false ->
  request_target (Tornado.uri (request login)) (prefix +:+ "/login") ->
  request_target (Tornado.uri (request callback)) (prefix +:+ "/callback") ->
  Tornado.protocol (request callback) = Tornado.protocol (request login) ->
  Tornado.host (request callback) = Tornado.host (request login) ->
  (MultiOAuthenticator.get_callback_url self (Some login)).2 =
    Return (Tornado.protocol (request login) +:+ "://" +:+
            Tornado.host (request login) +:+ prefix +:+ "/callback") /\
  (MultiOAuthenticator.get_callback_url self (Some callback)).2 =
  (MultiOAuthenticator.get_callback_url self (Some login)).2.
Proof.
  intros Hl Hc Hp Hocc Hlogin Hcallback Hproto Hhost.
  rewrite !get_callback_url_falls_through by done.
  unfold MultiOAuthenticator.callback_url_from_request.
  rewrite (urlsplit_path_target _ _ Hp Hlogin).
  rewrite (urlsplit_path_target _ _ (origin_path_login_callback _ Hp) Hcallback).
  unfold rbind. rewrite Hproto, Hhost.
  rewrite (replace_login_none (prefix +:+ "/callback"))
    by by apply occurs_login_app_callback.
  assert (Hrep : Str.replace "/login" "/callback" (prefix +:+ "/login") =
                 prefix +:+ "/callback").
  { rewrite <- (append_nil_r "/login"), replace_login_app by done.
    reflexivity. }
  by rewrite Hrep.
Qed.

Lemma callback_url_same_at_login_and_callback_witness :
  (MultiOAuthenticator.get_callback_url Sample.hub (Some Sample.google_callback)).2 =
  (MultiOAuthenticator.get_callback_url Sample.hub (Some Sample.google_login)).2.
Proof.
  refine (proj2 (callback_url_same_at_login_and_callback Sample.hub
                   Sample.google_login Sample.google_callback "/hub/google"
                   _ _ _ _ _ _ _ _)).
  - repeat split; intros E; vm_compute in E; try discriminate E;
      eexists; split; reflexivity.
  - repeat split; intros E; vm_compute in E; discriminate E.
  - reflexivity.
  - reflexivity.
  - left. reflexivity.
  - right. eexists. reflexivity.
  - reflexivity.
  - reflexivity.
Defined.

(** X7: whatever the request path, the path of a URL made from the
    request holds no [/login] any more, and making the URL again from that
    path changes nothing. *)
Theorem callback_url_from_request_stable handler path :
  Urllib.urlsplit_path (Tornado.uri (request handler)) = Return path ->
  exists path',
    MultiOAuthenticator.callback_url_from_request handler =
      Return (Tornado.protocol (request handler) +:+ "://" +:+
              Tornado.host (request handler) +:+ path') /\
    Str.occurs "/login" path' = false /\
    Str.replace "/login" "/callback" path' = path'.
Proof.
  intros Hpath. exists (Str.replace "/login" "/callback" path).
  unfold MultiOAuthenticator.callback_url_from_request. rewrite Hpath.
  split; [done|]. split; [apply occurs_replace_login|].
  apply replace_login_none, occurs_replace_login.
Qed.

Lemma callback_url_from_request_stable_witness :
  exists path',
    MultiOAuthenticator.callback_url_from_request
      (Sample.handler_of [LoginHandler] "/login/login?x=/login" ∅) =
      Return ("https://hub.example.org" +:+ path') /\
    Str.occurs "/login" path' = false.
Proof.
  destruct (callback_url_from_request_stable
              (Sample.handler_of [LoginHandler] "/login/login?x=/login" ∅)
              "/login/login" eq_refl) as (path' & Hurl & Hocc & _).
  exists path'. split; [exact Hurl|exact Hocc].
Defined.

End CallbackUrlFacts.

(** ** The route table: further properties *)

Section RouteTableFacts.

Implicit Types (self : MultiOAuthenticator.t) (handler : RequestHandler).

(** One provider's block of [get_handlers]: disabled, or enabled with its
    login handler missing, its callback handler missing, or both there. *)
Local Ltac provider_block flag a app :=
  destruct flag eqn:?;
  [ destruct (dict (Authenticator.get_handlers a app) !! "/oauth_login") eqn:?;
    [ destruct (dict (Authenticator.get_handlers a app) !! "/oauth_callback") eqn:?
    | ]
  | ].

(** X8: when an enabled provider's own handler map lacks the login or the
    callback handler, [get_handlers] returns no table at all: it raises
    [KeyError] for [/oauth_login] or for [/oauth_callback]. *)
Theorem get_handlers_missing_handler self app k :
  enabled self k = true ->
  ~ has_oauth_handlers (authenticator_of self k) app ->
  MultiOAuthenticator.get_handlers self app = Raise (KeyError "/oauth_login") \/
  MultiOAuthenticator.get_handlers self app = Raise (KeyError "/oauth_callback").
Proof.
  intros Hk Hmiss. unfold has_oauth_handlers in Hmiss.
  unfold MultiOAuthenticator.get_handlers, subscript. cbv zeta.
  destruct k; simpl in Hk, Hmiss.
  all: provider_block (MultiOAuthenticator.enable_google self)
         (MultiOAuthenticator.google_authenticator self) app;
       cbv [rbind];
       try solve [ left; reflexivity | right; reflexivity | congruence
                 | exfalso; apply Hmiss; split; eauto ].
  all: provider_block (MultiOAuthenticator.enable_github self)
         (MultiOAuthenticator.github_authenticator self) app;
       cbv [rbind];
       try solve [ left; reflexivity | right; reflexivity | congruence
                 | exfalso; apply Hmiss; split; eauto ].
  all: provider_block (MultiOAuthenticator.enable_gitlab self)
         (MultiOAuthenticator.gitlab_authenticator self) app;
       cbv [rbind];
       solve [ left; reflexivity | right; reflexivity | congruence
             | exfalso; apply Hmiss; split; eauto ].
Qed.

Lemma get_handlers_missing_handler_witness :
  MultiOAuthenticator.get_handlers Sample.hub_broken_gitlab Sample.app =
  Raise (KeyError "/oauth_callback").
Proof.
  destruct (get_handlers_missing_handler Sample.hub_broken_gitlab Sample.app gitlab)
    as [H|H].
  - reflexivity.
  - intros [_ [cls Hcls]]. vm_compute in Hcls. discriminate Hcls.
  - vm_compute in H. discriminate H.
  - exact H.
Defined.

(** X9: a route table [get_handlers] returns lists its paths in a fixed
    order, [/login] first and then the login and callback path of each
    enabled provider in the order google, github, gitlab, and no path
    twice. *)
Theorem get_handlers_paths self app routes :
  MultiOAuthenticator.get_handlers self app = Return routes ->
  routes.*1 = "/login" :: List.flat_map provider_paths (enabled_keys self) /\
  NoDup (routes.*1).
Proof.
  unfold MultiOAuthenticator.get_handlers, subscript, enabled_keys.
  cbv zeta. simpl List.filter. intros H.
  provider_block (MultiOAuthenticator.enable_google self)
    (MultiOAuthenticator.google_authenticator self) app;
    cbv [rbind] in H; try discriminate H;
    (provider_block (MultiOAuthenticator.enable_github self)
       (MultiOAuthenticator.github_authenticator self) app;
     cbv [rbind] in H; try discriminate H);
    (provider_block (MultiOAuthenticator.enable_gitlab self)
       (MultiOAuthenticator.gitlab_authenticator self) app;
     cbv [rbind] in H; try discriminate H);
    injection H as <-; (split; [reflexivity|]);
    apply NoDup_ListNoDup; simpl;
    repeat (constructor; [simpl; intros Hin;
                          repeat (destruct Hin as [Hin|Hin]; [discriminate Hin|]);
                          exact Hin|]);
    constructor.
Qed.

Lemma get_handlers_paths_witness :
  exists routes,
    MultiOAuthenticator.get_handlers Sample.hub_github_only Sample.app =
      Return routes /\
    routes.*1 = ["/login"; "/github/login"; "/github/callback"].
Proof.
  eexists. split; [reflexivity|].
  exact (proj1 (get_handlers_paths Sample.hub_github_only Sample.app _ eq_refl)).
Defined.

(** X10: [get_handlers] never looks at a disabled provider.  Two
    dispatchers with the same enable flags and the same sub-authenticators
    for the enabled providers build the same route table, or raise the
    same error. *)
Theorem get_handlers_ignores_disabled self self' app :
  (forall k, enabled self' k = enabled self k) ->
  (forall k, enabled self k = true ->
             authenticator_of self' k = authenticator_of self k) ->
  MultiOAuthenticator.get_handlers self' app =
  MultiOAuthenticator.get_handlers self app.
Proof.
  intros Hflag Hauth.
  pose proof (Hflag google) as Fg. pose proof (Hauth google) as Ag.
  pose proof (Hflag github) as Fh. pose proof (Hauth github) as Ah.
  pose proof (Hflag gitlab) as Fl. pose proof (Hauth gitlab) as Al.
  simpl in Fg, Fh, Fl, Ag, Ah, Al.
  unfold MultiOAuthenticator.get_handlers. rewrite Fg, Fh, Fl.
  destruct (MultiOAuthenticator.enable_google self);
    destruct (MultiOAuthenticator.enable_github self);
    destruct (MultiOAuthenticator.enable_gitlab self);
    rewrite ?Ag, ?Ah, ?Al by done; reflexivity.
Qed.

Lemma get_handlers_ignores_disabled_witness :
  MultiOAuthenticator.get_handlers
    (MultiOAuthenticator.__init__ false true false
       Sample.login_only_sub Sample.github_sub Sample.login_only_sub
       Sample.config_unset Sample.login_url) Sample.app =
  Return [("/login", MultiOAuthLoginHandler);
          ("/github/login", GitHubLoginHandler);
          ("/github/callback", OtherHandler "OAuthCallbackHandler")].
Proof.
  rewrite (get_handlers_ignores_disabled Sample.hub_github_only).
  - reflexivity.
  - intros []; reflexivity.
  - intros [] Hk; first [discriminate Hk | reflexivity].
Defined.

(** X11: the outcome of [authenticate] is settled by the Google and the
    GitHub authenticator alone: the GitLab authenticator, the enable flags,
    [self.config] and the cached credentials have no part in it. *)
Theorem authenticate_ignores_gitlab self self' handler data :
  MultiOAuthenticator.google_authenticator self' =
    MultiOAuthenticator.google_authenticator self ->
  MultiOAuthenticator.github_authenticator self' =
    MultiOAuthenticator.github_authenticator self ->
  MultiOAuthenticator.authenticate self' handler data =
  MultiOAuthenticator.authenticate self handler data.
Proof.
  intros Hg Hh. unfold MultiOAuthenticator.authenticate. by rewrite Hg, Hh.
Qed.

Lemma authenticate_ignores_gitlab_witness :
  MultiOAuthenticator.authenticate Sample.hub_broken_gitlab
    Sample.gitlab_callback ∅ =
  MultiOAuthenticator.authenticate Sample.hub Sample.gitlab_callback ∅.
Proof.
  apply (authenticate_ignores_gitlab Sample.hub Sample.hub_broken_gitlab);
    reflexivity.
Defined.

Lemma foldl_insert_lookup_other {V} (l : list (string * V)) key :
  key ∉ l.*1 ->
  forall d : gmap string V,
    foldl (fun d kv => <[kv.1 := kv.2]> d) d l !! key = d !! key.
Proof.
  induction l as [|[k v] l IH]; intros Hkey d; [done|].
  simpl in *. apply not_elem_of_cons in Hkey as [Hne Hkey].
  rewrite IH by done. by rewrite lookup_insert_ne.
Qed.

(** [dict] keeps the last entry of a key. *)
Lemma dict_lookup_last {V} (l1 l2 : list (string * V)) key v :
  key ∉ l2.*1 -> dict (l1 ++ (key, v) :: l2) !! key = Some v.
Proof.
  intros Hkey. unfold dict. rewrite foldl_app. simpl.
  rewrite foldl_insert_lookup_other by done. apply lookup_insert_eq.
Qed.

(** X12: when a provider's own handler map lists [/oauth_login] more than
    once, the route [/<key>/login] gets the handler of the last such
    entry, and no other. *)
Theorem get_handlers_takes_last_entry self app k l1 cls l2 routes :
  enabled self k = true ->
  Authenticator.get_handlers (authenticator_of self k) app =
    l1 ++ ("/oauth_login", cls) :: l2 ->
  "/oauth_login" ∉ l2.*1 ->
  MultiOAuthenticator.get_handlers self app = Return routes ->
  ("/" +:+ key_name k +:+ "/login", cls) ∈ routes /\
  forall cls', ("/" +:+ key_name k +:+ "/login", cls') ∈ routes -> cls' = cls.
Proof.
  intros Hk Hlist Hlast H.
  assert (Hdict : dict (Authenticator.get_handlers (authenticator_of self k) app)
                    !! "/oauth_login" = Some cls).
  { rewrite Hlist. by apply dict_lookup_last. }
  clear Hlist Hlast.
  unfold MultiOAuthenticator.get_handlers, subscript in H. cbv zeta in H.
  destruct k; simpl in Hk, Hdict |- *.
  all: provider_block (MultiOAuthenticator.enable_google self)
         (MultiOAuthenticator.google_authenticator self) app;
       cbv [rbind] in H; try discriminate H; try discriminate Hk;
       (provider_block (MultiOAuthenticator.enable_github self)
          (MultiOAuthenticator.github_authenticator self) app;
        cbv [rbind] in H; try discriminate H; try discriminate Hk);
       (provider_block (MultiOAuthenticator.enable_gitlab self)
          (MultiOAuthenticator.gitlab_authenticator self) app;
        cbv [rbind] in H; try discriminate H; try discriminate Hk);
       injection H as <-; injection Hdict as ->;
       (split;
        [ apply list_elem_of_In; simpl; repeat first [left; reflexivity | right]
        | intros cls' Hin; apply list_elem_of_In in Hin; simpl in Hin;
          repeat (destruct Hin as [Hin|Hin]; [try discriminate Hin|]);
          try contradiction; congruence ]).
Qed.

Lemma get_handlers_takes_last_entry_witness :
  exists routes,
    MultiOAuthenticator.get_handlers
      (MultiOAuthenticator.__init__ true false false
         Sample.twice_login_sub Sample.github_sub Sample.gitlab_sub
         Sample.config_unset Sample.login_url) Sample.app = Return routes /\
    ("/google/login", GoogleLoginHandler) ∈ routes.
Proof.
  eexists. split; [reflexivity|].
  apply (get_handlers_takes_last_entry
           (MultiOAuthenticator.__init__ true false false
              Sample.twice_login_sub Sample.github_sub Sample.gitlab_sub
              Sample.config_unset Sample.login_url)
           Sample.app google [("/oauth_login", OAuthLoginHandler)]
           GoogleLoginHandler [("/oauth_callback", GoogleOAuthHandler)]).
  - reflexivity.
  - reflexivity.
  - simpl. intros Hin. apply list_elem_of_In in Hin. simpl in Hin.
    destruct Hin as [Hin|Hin]; [discriminate Hin|exact Hin].
  - reflexivity.
Defined.

End RouteTableFacts.

(** ** The chooser handler: further properties *)

Section ChooserFacts.

Implicit Types (authenticator : MultiOAuthenticator.t) (self : RequestHandler).


Lemma hex_digit_safe n : Urllib.always_safe (Urllib.hex_digit n) = true.
Proof.
  destruct n as [|p]; [reflexivity|].
  do 4 (destruct p as [p|p|]; try reflexivity).
Qed.

Lemma quote_plus_escaped s :
  Str.forallb escaped_char (Urllib.quote_plus s) = true.
Proof.
  unfold Urllib.quote_plus. induction s as [|c s IH]; [done|].
  simpl. rewrite forallb_app, IH, andb_true_r.
  destruct (Urllib.always_safe c) eqn:Hc.
  - simpl. unfold escaped_char. by rewrite Hc.
  - destruct (Ascii.eqb c " "); [reflexivity|].
    unfold Urllib.percent, escaped_char. simpl.
    by rewrite !hex_digit_safe.
Qed.

(** X14: the [next] value [_render] hands to the template is made of
    letters, digits, [_.-~], [%] and [+] only, whatever was submitted: no
    quote, angle bracket, ampersand or blank reaches the page through
    it.  This holds of every page [_render] returns. *)
Theorem render_next_is_escaped authenticator self login_error page :
  MultiOAuthLoginHandler._render authenticator self login_error = Return page ->
  Str.forallb escaped_char (MultiOAuthLoginHandler.next page) = true.
Proof.
  unfold MultiOAuthLoginHandler._render.
  destruct (get_argument self "next" (Some "")) as [e|nextval]; [done|].
  simpl. intros [= <-]. apply quote_plus_escaped.
Qed.

Lemma render_next_is_escaped_witness :
  exists page,
    MultiOAuthLoginHandler._render Sample.hub
      (Sample.chooser {[ "next" := ["/foo?a=<b>&c=' d"] ]}) None = Return page /\
    MultiOAuthLoginHandler.next page = "%2Ffoo%3Fa%3D%3Cb%3E%26c%3D%27+d" /\
    Str.forallb escaped_char (MultiOAuthLoginHandler.next page) = true.
Proof.
  eexists. split; [vm_compute; reflexivity|]. split; [reflexivity|].
  apply (render_next_is_escaped Sample.hub
           (Sample.chooser {[ "next" := ["/foo?a=<b>&c=' d"] ]}) None).
  vm_compute. reflexivity.
Defined.



End ChooserFacts.
